(** * weather-service: a shallow embedding of [main.go]

    The service is a single Go file.  Its functions are translated below in
    the order of the source, after models of the few standard-library
    functions they call ([strings.TrimSpace], [strconv.Atoi],
    [strconv.ParseFloat], the [%f] and [%d] verbs of [fmt], [fmt.Fprintf]
    with a format and no operand, [net.ParseIP]).

    Data: a Go [string] is a sequence of bytes, here [string] (8-bit
    [ascii]); [float64] is IEEE 754 binary64, here the primitive [float];
    [int] is [Z].  A Go result [(v, err)] is a pair whose second component
    is [None] for [nil]. *)

From Stdlib Require Import ZArith NArith List String Ascii Bool Lia.
From Stdlib Require Import Floats DecimalString DecimalN.
Import ListNotations.

Set Warnings "-inexact-float".

Open Scope string_scope.

(** ** Bytes *)

Definition byte_of (n : N) : ascii := ascii_of_N n.

Fixpoint bytes (l : list N) : string :=
  match l with
  | [] => EmptyString
  | n :: l' => String (byte_of n) (bytes l')
  end.

(** [lo <= c && c <= hi] on bytes. *)
Definition between (lo hi c : ascii) : bool :=
  (N_of_ascii lo <=? N_of_ascii c)%N && (N_of_ascii c <=? N_of_ascii hi)%N.

Definition isDigit (c : ascii) : bool := between "0" "9" c.

Definition digitVal (c : ascii) : Z := (Z.of_N (N_of_ascii c) - 48)%Z.

(** [lower(c) = c | ('x' - 'X')] of package strconv. *)
Definition lower (c : ascii) : ascii := ascii_of_N (N.lor (N_of_ascii c) 32).

Fixpoint rev_string (s acc : string) : string :=
  match s with
  | EmptyString => acc
  | String c s' => rev_string s' (String c acc)
  end.

Fixpoint allb (p : ascii -> bool) (s : string) : bool :=
  match s with
  | EmptyString => true
  | String c s' => p c && allb p s'
  end.

Fixpoint drop (n : nat) (s : string) : string :=
  match n, s with
  | O, _ => s
  | S n', String _ s' => drop n' s'
  | S _, EmptyString => EmptyString
  end.

(** [strip p s] is [Some r] when [s = p ++ r]. *)
Fixpoint strip (p s : string) : option string :=
  match p, s with
  | EmptyString, _ => Some s
  | String a p', String b s' => if Ascii.eqb a b then strip p' s' else None
  | String _ _, EmptyString => None
  end.

(** The decimal numeral of a natural number, as [strconv.Itoa] prints it. *)
Definition decimal (n : Z) : string := NilZero.string_of_uint (N.to_uint (Z.to_N n)).

(** ** Package strings *)

Module strings.

(** The white space of [unicode.IsSpace], as the UTF-8 byte sequences a Go
    string holds: the six ASCII characters, U+0085, U+00A0, U+1680,
    U+2000..U+200A, U+2028, U+2029, U+202F, U+205F and U+3000. *)
Definition spaces : list string :=
  map bytes
    [ [9]; [10]; [11]; [12]; [13]; [32];
      [194; 133]; [194; 160]; [225; 154; 128];
      [226; 128; 128]; [226; 128; 129]; [226; 128; 130]; [226; 128; 131];
      [226; 128; 132]; [226; 128; 133]; [226; 128; 134]; [226; 128; 135];
      [226; 128; 136]; [226; 128; 137]; [226; 128; 138];
      [226; 128; 168]; [226; 128; 169]; [226; 128; 175];
      [226; 129; 159]; [227; 128; 128] ]%N.

(** What is left of [s] after one leading white-space character. *)
Fixpoint stripAny (ps : list string) (s : string) : option string :=
  match ps with
  | [] => None
  | p :: ps' => match strip p s with
                | Some r => Some r
                | None => stripAny ps' s
                end
  end.

Fixpoint trimLeft (fuel : nat) (ps : list string) (s : string) : string :=
  match fuel with
  | O => s
  | S fuel' => match stripAny ps s with
               | Some r => trimLeft fuel' ps r
               | None => s
               end
  end.

Definition TrimLeftSpace (s : string) : string :=
  trimLeft (String.length s) spaces s.

(** Trimming on the right is trimming the reversed string of the reversed
    sequences. *)
Definition TrimRightSpace (s : string) : string :=
  rev_string
    (trimLeft (String.length s) (map (fun p => rev_string p "") spaces)
              (rev_string s ""))
    "".

(** [strings.TrimSpace] *)
Definition TrimSpace (s : string) : string := TrimRightSpace (TrimLeftSpace s).

(** [strings.Contains]: [substr] occurs in [s]. *)
Fixpoint Contains (s substr : string) : bool :=
  match strip substr s with
  | Some _ => true
  | None => match s with
            | EmptyString => false
            | String _ s' => Contains s' substr
            end
  end.

End strings.

(** ** Package strconv *)

Module strconv.

(** The value of a run of decimal digits. *)
Fixpoint digitsVal (acc : Z) (s : string) : Z :=
  match s with
  | EmptyString => acc
  | String c s' => digitsVal (acc * 10 + digitVal c)%Z s'
  end.

(** [strconv.Atoi] on a 64-bit platform: an optional sign, then one or more
    decimal digits and nothing else; a value that does not fit [int] is a
    range error.  [None] is a non-nil error. *)
Definition Atoi (s : string) : option Z :=
  let '(neg, ds) :=
    match s with
    | String "-" r => (true, r)
    | String "+" r => (false, r)
    | _ => (false, s)
    end in
  match ds with
  | EmptyString => None
  | _ =>
      if allb isDigit ds then
        let n := digitsVal 0 ds in
        let v := (if neg then - n else n)%Z in
        if ((- 2 ^ 63 <=? v) && (v <=? 2 ^ 63 - 1))%Z then Some v else None
      else None
  end.

(** [strconv.Itoa] *)
Definition Itoa (n : Z) : string :=
  if (n <? 0)%Z then "-" ++ decimal (- n)%Z else decimal n.

(** *** Rounding to binary64 and back *)

(** The integer nearest to [p / q] ([q > 0]), a tie going to the even one:
    IEEE 754 round-to-nearest-even, which [ParseFloat] uses to choose the
    float and [FormatFloat] to choose the digits. *)
Definition nearestEven (p q : Z) : Z :=
  let d := (p / q)%Z in
  match (2 * (p mod q) ?= q)%Z with
  | Lt => d
  | Gt => (d + 1)%Z
  | Eq => if Z.even d then d else (d + 1)%Z
  end.

(** [p / q] with [q] multiplied by [2 ^ e] ([e] of either sign). *)
Definition scaled (p q e : Z) : Z * Z :=
  if (0 <=? e)%Z then (p, q * 2 ^ e)%Z else (p * 2 ^ (- e), q)%Z.

(** The binary64 number nearest to [p / q] for [p, q > 0]: a 53-bit
    significand, or less at the smallest exponent -1074; [infinity] when
    the rounded value is above the largest finite number. *)
Definition float64_of_ratio (p q : Z) : float :=
  let e0 := (Z.log2 p - Z.log2 q - 53)%Z in
  let '(a0, b0) := scaled p q e0 in
  let e1 := if (a0 / b0 <? 2 ^ 53)%Z then e0 else (e0 + 1)%Z in
  let e := Z.max e1 (-1074) in
  let '(a, b) := scaled p q e in
  FloatOps.Z.ldexp (PrimFloat.of_uint63 (Uint63.of_Z (nearestEven a b))) e.

(** *** ParseFloat *)

(** [commonPrefixLenIgnoreCase]: [prefix] is in lower case. *)
Fixpoint commonPrefixLenIgnoreCase (s prefix : string) : nat :=
  match s, prefix with
  | String c s', String d prefix' =>
      let c' := if between "A" "Z" c
                then ascii_of_N (N_of_ascii c + 32) else c in
      if Ascii.eqb c' d then S (commonPrefixLenIgnoreCase s' prefix') else O
  | _, _ => O
  end.

(** [special]: the value and the number of bytes read when [s] starts
    with an infinity or a NaN. *)
Definition special (s : string) : option (float * nat) :=
  let inf (neg : bool) (nsign : nat) (t : string) :=
    let n := commonPrefixLenIgnoreCase t "infinity" in
    let n := if (3 <? n)%nat && (n <? 8)%nat then 3%nat else n in
    if (n =? 3)%nat || (n =? 8)%nat
    then Some (if neg then neg_infinity else infinity, (nsign + n)%nat)
    else None in
  match s with
  | EmptyString => None
  | String c r =>
      if Ascii.eqb c "+" then inf false 1%nat r
      else if Ascii.eqb c "-" then inf true 1%nat r
      else if Ascii.eqb c "i" || Ascii.eqb c "I" then inf false 0%nat s
      else if Ascii.eqb c "n" || Ascii.eqb c "N" then
        if (commonPrefixLenIgnoreCase s "nan" =? 3)%nat
        then Some (nan, 3%nat) else None
      else None
  end.

(** The variables of the digit loop of [readFloat].  [mant] holds all the
    digits: the source keeps 19 of them and a flag for the rest, and
    rounds to the same float. *)
Record scan : Set := mkScan {
  sawdot : bool;
  sawdigits : bool;
  nd : Z;
  dp : Z;
  mant : Z;
  underscores : bool
}.

Fixpoint readDigits (hex : bool) (s : string) (st : scan) : scan * string :=
  match s with
  | EmptyString => (st, s)
  | String c s' =>
      if Ascii.eqb c "_" then
        readDigits hex s'
          (mkScan (sawdot st) (sawdigits st) (nd st) (dp st) (mant st) true)
      else if Ascii.eqb c "." then
        if sawdot st then (st, s)
        else readDigits hex s'
               (mkScan true (sawdigits st) (nd st) (nd st) (mant st)
                       (underscores st))
      else if isDigit c then
        if Ascii.eqb c "0" && (nd st =? 0)%Z then
          readDigits hex s'
            (mkScan (sawdot st) true (nd st) (dp st - 1)%Z (mant st)
                    (underscores st))
        else
          readDigits hex s'
            (mkScan (sawdot st) true (nd st + 1)%Z (dp st)
                    (mant st * (if hex then 16 else 10) + digitVal c)%Z
                    (underscores st))
      else if hex && between "a" "f" (lower c) then
        readDigits hex s'
          (mkScan (sawdot st) true (nd st + 1)%Z (dp st)
                  (mant st * 16 + (Z.of_N (N_of_ascii (lower c)) - 97 + 10))%Z
                  (underscores st))
      else (st, s)
  end.

(** The digits of the exponent: the value, capped as in the source
    ([if e < 10000 { e = e*10 + ... }]), whether an underscore was seen,
    and the rest of the string. *)
Fixpoint readExp (s : string) (e : Z) (us : bool) : Z * bool * string :=
  match s with
  | EmptyString => (e, us, s)
  | String c s' =>
      if Ascii.eqb c "_" then readExp s' e true
      else if isDigit c then
        readExp s' (if (e <? 10000)%Z then e * 10 + digitVal c else e)%Z us
      else (e, us, s)
  end.

Inductive sawKind : Set := SawStart | SawDigit | SawUnderscore | SawOther.

Fixpoint underscoreLoop (hex : bool) (saw : sawKind) (s : string) : bool :=
  match s with
  | EmptyString => match saw with SawUnderscore => false | _ => true end
  | String c s' =>
      if isDigit c || (hex && between "a" "f" (lower c)) then
        underscoreLoop hex SawDigit s'
      else if Ascii.eqb c "_" then
        match saw with
        | SawDigit => underscoreLoop hex SawUnderscore s'
        | _ => false
        end
      else
        match saw with
        | SawUnderscore => false
        | _ => underscoreLoop hex SawOther s'
        end
  end.

(** [underscoreOK]: underscores only between digits, or between a base
    prefix and a digit. *)
Definition underscoreOK (s : string) : bool :=
  let s := match s with
           | String c r => if Ascii.eqb c "-" || Ascii.eqb c "+" then r else s
           | _ => s
           end in
  match s with
  | String "0" (String c r) =>
      if Ascii.eqb (lower c) "b" || Ascii.eqb (lower c) "o"
         || Ascii.eqb (lower c) "x"
      then underscoreLoop (Ascii.eqb (lower c) "x") SawDigit r
      else underscoreLoop false SawStart s
  | _ => underscoreLoop false SawStart s
  end.

(** What [readFloat] finds when it accepts a prefix of the string: the
    sign, the number as [num * base ^ pow] with [base] 2 for a hexadecimal
    mantissa and 10 otherwise, whether underscores occurred, and what is
    left unread. *)
Record number : Set := mkNumber {
  neg : bool;
  hex : bool;
  num : Z;
  pow : Z;
  sawUnderscore : bool;
  unread : string
}.

Definition readFloat (s : string) : option number :=
  let '(neg, s1) :=
    match s with
    | String "+" r => (false, r)
    | String "-" r => (true, r)
    | _ => (false, s)
    end in
  let '(hex, s2) :=
    match s1 with
    | String "0" (String c (String d r)) =>
        if Ascii.eqb (lower c) "x" then (true, String d r) else (false, s1)
    | _ => (false, s1)
    end in
  let '(st, s3) := readDigits hex s2 (mkScan false false 0 0 0 false) in
  if negb (sawdigits st) then None
  else
    let dp0 := if sawdot st then dp st else nd st in
    let dp1 := if hex then (dp0 * 4)%Z else dp0 in
    let ndMant := if hex then (nd st * 4)%Z else nd st in
    let finish (dp2 : Z) (us : bool) (rest : string) :=
      Some (mkNumber neg hex (mant st) (dp2 - ndMant)%Z us rest) in
    match s3 with
    | String c s4 =>
        if Ascii.eqb (lower c) (if hex then "p" else "e")%char then
          let '(esign, s5) :=
            match s4 with
            | String "+" r => (1%Z, r)
            | String "-" r => ((-1)%Z, r)
            | _ => (1%Z, s4)
            end in
          match s5 with
          | String d _ =>
              if isDigit d then
                let '(e, us, s6) := readExp s5 0 (underscores st) in
                finish (dp1 + e * esign)%Z us s6
              else None
          | EmptyString => None
          end
        else if hex then None
        else finish dp1 (underscores st) s3
    | EmptyString => if hex then None else finish dp1 (underscores st) s3
    end.

(** [strconv.ParseFloat(s, 64)]; [None] is a non-nil error (syntax or
    range).  The whole string has to be read; the value is the float
    nearest to the number written, and a range error when that is not
    finite. *)
Definition ParseFloat (s : string) : option float :=
  match special s with
  | Some (f, n) => if (n =? String.length s)%nat then Some f else None
  | None =>
      match readFloat s with
      | None => None
      | Some r =>
          match unread r with
          | String _ _ => None
          | EmptyString =>
              if sawUnderscore r && negb (underscoreOK s) then None
              else
                let b := if hex r then 2%Z else 10%Z in
                let f :=
                  if (num r =? 0)%Z then zero
                  else if (0 <=? pow r)%Z
                       then float64_of_ratio (num r * b ^ pow r) 1
                       else float64_of_ratio (num r) (b ^ (- pow r)) in
                if is_finite f
                then Some (if neg r then (- f)%float else f)
                else None
          end
      end
  end.

(** *** FormatFloat *)

Fixpoint zeros (n : nat) : string :=
  match n with
  | O => EmptyString
  | S n' => String "0" (zeros n')
  end.

(** The numeral of [n / 10 ^ prec] with [prec] digits after the point. *)
Definition fixed (n : Z) (prec : nat) : string :=
  let scale := (10 ^ Z.of_nat prec)%Z in
  let frac := decimal (n mod scale) in
  decimal (n / scale)
  ++ match prec with
     | O => EmptyString
     | _ => "." ++ zeros (prec - String.length frac) ++ frac
     end.

(** [strconv.FormatFloat(f, 'f', prec, 64)]: the exact value of the float
    rounded to [prec] decimals, to nearest and to even on a tie. *)
Definition FormatFloat (f : float) (prec : nat) : string :=
  match Prim2SF f with
  | S754_nan => "NaN"
  | S754_infinity s => if s then "-Inf" else "+Inf"
  | S754_zero s => (if s then "-" else "") ++ fixed 0 prec
  | S754_finite s m e =>
      let '(a, b) := scaled (Z.pos m * 10 ^ Z.of_nat prec) 1 (- e) in
      (if s then "-" else "") ++ fixed (nearestEven a b) prec
  end.

End strconv.

(** ** Package fmt *)

Module fmt.

(** The verb [%f] with a precision, as in ["%.0f"] and ["%f"] (six
    decimals): the text of [strconv.FormatFloat], with [NaN] and the
    infinities printed as [NaN], [+Inf] and [-Inf]. *)
Definition verb_f (prec : nat) (f : float) : string :=
  strconv.FormatFloat f prec.

(** The verb [%d] of an [int]. *)
Definition verb_d (n : Z) : string := strconv.Itoa n.

(** *** A format printed with no operand

    [fmt.Fprintf(w, format)] copies the text of [format] and, at each [%],
    reads flags, width, precision and argument indexes as usual; with no
    operand to print, [%%] gives [%] and every other verb a note of the
    error. *)

(** [utf8.DecodeRuneInString]: the number of bytes of the character at the
    head of [s], 0 when the bytes there are not a UTF-8 encoding. *)
Definition runeLen (s : string) : nat :=
  let cont := between (byte_of 128%N) (byte_of 191%N) in
  let tail2 (lo hi : N) :=
    match s with
    | String _ (String b _) => between (byte_of lo) (byte_of hi) b
    | _ => false
    end in
  let conts (k : nat) :=
    (* bytes 3..k of [s] are continuation bytes *)
    match k, s with
    | 2%nat, _ => true
    | 3%nat, String _ (String _ (String c _)) => cont c
    | 4%nat, String _ (String _ (String c (String d _))) => cont c && cont d
    | _, _ => false
    end in
  match s with
  | EmptyString => O
  | String a _ =>
      let n := N_of_ascii a in
      if (n <? 128)%N then 1%nat
      else if (n <? 194)%N then O
      else if (n <? 224)%N then if tail2 128%N 191%N then 2%nat else O
      else if (n =? 224)%N then if tail2 160%N 191%N && conts 3%nat then 3%nat else O
      else if (n =? 237)%N then if tail2 128%N 159%N && conts 3%nat then 3%nat else O
      else if (n <? 240)%N then if tail2 128%N 191%N && conts 3%nat then 3%nat else O
      else if (n =? 240)%N then if tail2 144%N 191%N && conts 4%nat then 4%nat else O
      else if (n <? 244)%N then if tail2 128%N 191%N && conts 4%nat then 4%nat else O
      else if (n =? 244)%N then if tail2 128%N 143%N && conts 4%nat then 4%nat else O
      else O
  end.

Fixpoint take (n : nat) (s : string) : string :=
  match n, s with
  | S n', String c s' => String c (take n' s')
  | _, _ => EmptyString
  end.

(** The verb at the head of [s], as [writeRune] prints it back (U+FFFD for
    bytes that are not UTF-8), and what follows it. *)
Definition readVerb (s : string) : string * string :=
  match runeLen s with
  | O => (bytes [239; 191; 189]%N, drop 1 s)
  | n => (take n s, drop n s)
  end.

Fixpoint skipFlags (s : string) : string :=
  match s with
  | String c s' =>
      if Ascii.eqb c "#" || Ascii.eqb c "0" || Ascii.eqb c "+"
         || Ascii.eqb c "-" || Ascii.eqb c " "
      then skipFlags s' else s
  | EmptyString => s
  end.

(** [parsenum]: whether a number was read, and the rest; a number above
    [1e6] abandons the whole range being read. *)
Fixpoint parsenum (s : string) (num : Z) (isnum : bool) : bool * string :=
  match s with
  | String c s' =>
      if isDigit c then
        if (1000000 <? num)%Z then (false, EmptyString)
        else parsenum s' (num * 10 + digitVal c)%Z true
      else (isnum, s)
  | EmptyString => (isnum, s)
  end.

(** The text before the first ["]"] of [s], when there is one. *)
Fixpoint upToBracket (s : string) : option string :=
  match s with
  | EmptyString => None
  | String c s' =>
      if Ascii.eqb c "]" then Some EmptyString
      else option_map (String c) (upToBracket s')
  end.

(** [parseArgNumber] on a text that starts with ["["]: its width and
    whether it is an argument index. *)
Definition parseArgNumber (s : string) : nat * bool :=
  if (String.length s <? 3)%nat then (1%nat, false)
  else
    match upToBracket (drop 1 s) with
    | Some inner =>
        let w := (String.length inner + 2)%nat in
        match parsenum inner 0 false with
        | (true, EmptyString) => (w, true)
        | _ => (w, false)
        end
    | None => (1%nat, false)
    end.

(** [argNumber] with no operand: the rest, [afterIndex], [goodArgNum].  No
    index is in range, so one that is present spoils [goodArgNum]. *)
Definition argNumber (s : string) (good : bool) : string * bool * bool :=
  match s with
  | String "[" _ =>
      let '(wid, ok) := parseArgNumber s in (drop wid s, ok, false)
  | _ => (s, false, good)
  end.

(** One verb, read after its [%]: what is printed, and the rest of the
    format ([None] when the format ends inside the verb). *)
Definition doVerb (s : string) : string * option string :=
  let s := skipFlags s in
  let '(s, afterIndex, good) := argNumber s true in
  let '(out1, s, afterIndex, good) :=
    match s with
    | String "*" r => ("%!(BADWIDTH)", r, false, good)
    | _ => let '(isnum, r) := parsenum s 0 false in
           ("", r, afterIndex, if afterIndex && isnum then false else good)
    end in
  let '(out2, s, afterIndex, good) :=
    match s with
    | String "." r =>
        let good := if afterIndex then false else good in
        let '(r, afterIndex, good) := argNumber r good in
        match r with
        | String "*" r' => ("%!(BADPREC)", r', false, good)
        | _ => ("", snd (parsenum r 0 false), afterIndex, good)
        end
    | _ => ("", s, afterIndex, good)
    end in
  let '(s, afterIndex, good) :=
    if afterIndex then (s, afterIndex, good) else argNumber s good in
  match s with
  | EmptyString => (out1 ++ out2 ++ "%!(NOVERB)", None)
  | String c _ =>
      let '(verb, rest) := readVerb s in
      (out1 ++ out2 ++
         (if Ascii.eqb c "%" then "%"
          else if negb good then "%!" ++ verb ++ "(BADINDEX)"
          else "%!" ++ verb ++ "(MISSING)"),
       Some rest)
  end.

Fixpoint doPrintf (fuel : nat) (format : string) : string :=
  match fuel with
  | O => EmptyString
  | S fuel' =>
      match format with
      | EmptyString => EmptyString
      | String c rest =>
          if Ascii.eqb c "%" then
            match doVerb rest with
            | (out, Some rest') => out ++ doPrintf fuel' rest'
            | (out, None) => out
            end
          else String c (doPrintf fuel' rest)
      end
  end.

(** [fmt.Fprintf(w, format)]: what is written to [w]. *)
Definition Fprintf (format : string) : string :=
  doPrintf (String.length format) format.

End fmt.

(** ** Package net *)

Module net.

(** [parseIPv4Fields]: four decimal fields of value at most 255, with no
    leading zero, separated by single dots. *)
Fixpoint ipv4Fields (s : string) (first : bool) (prevDot : bool)
         (val pos digLen : Z) : bool :=
  match s with
  | EmptyString => negb (pos <? 3)%Z
  | String c s' =>
      if isDigit c then
        if (digLen =? 1)%Z && (val =? 0)%Z then false
        else
          let val' := (val * 10 + digitVal c)%Z in
          if (255 <? val')%Z then false
          else ipv4Fields s' false false val' pos (digLen + 1)%Z
      else if Ascii.eqb c "." then
        if first || prevDot
           || match s' with EmptyString => true | _ => false end
        then false
        else if (pos =? 3)%Z then false
        else ipv4Fields s' false true 0%Z (pos + 1)%Z 0%Z
      else false
  end.

Definition parseIPv4 (s : string) : bool := ipv4Fields s true false 0 0 0.

Definition isHex (c : ascii) : bool :=
  isDigit c || between "a" "f" c || between "A" "F" c.

(** The number of hexadecimal digits at the head of [s]. *)
Fixpoint hexRun (s : string) : nat :=
  match s with
  | String c s' => if isHex c then S (hexRun s') else O
  | EmptyString => O
  end.

(** The loop of [parseIPv6]: [i] bytes are filled, [ellipsis] tells
    whether ["::"] was seen. *)
Fixpoint ipv6Groups (fuel : nat) (s : string) (i : Z) (ellipsis : bool)
  : bool :=
  let finish (s : string) (i : Z) (ellipsis : bool) :=
    match s with
    | String _ _ => false
    | EmptyString => if (i <? 16)%Z then ellipsis else negb ellipsis
    end in
  match fuel with
  | O => false
  | S fuel' =>
      if negb (i <? 16)%Z then finish s i ellipsis
      else
        let off := hexRun s in
        if (4 <? off)%nat || (off =? 0)%nat then false
        else
          match drop off s with
          | String "." _ =>
              if negb ellipsis && negb (i =? 12)%Z then false
              else if (16 <? i + 4)%Z then false
              else if parseIPv4 s then finish EmptyString (i + 4)%Z ellipsis
              else false
          | EmptyString => finish EmptyString (i + 2)%Z ellipsis
          | String ":" EmptyString => false
          | String ":" (String ":" r) =>
              if ellipsis then false
              else
                match r with
                | EmptyString => finish EmptyString (i + 2)%Z true
                | _ => ipv6Groups fuel' r (i + 2)%Z true
                end
          | String ":" r => ipv6Groups fuel' r (i + 2)%Z ellipsis
          | String _ _ => false
          end
  end.

Definition parseIPv6 (s : string) : bool :=
  if strings.Contains s "%" then false
  else
    match s with
    | String ":" (String ":" EmptyString) => true
    | String ":" (String ":" r) => ipv6Groups (String.length s) r 0 true
    | _ => ipv6Groups (String.length s) s 0 false
    end.

(** [net.ParseIP(s) != nil]: the text is an IPv4 address in dotted
    decimal or an IPv6 address without a zone.  The first ["."], [":"] or
    ["%"] of [s] chooses the parser. *)
Fixpoint dispatch (whole s : string) : bool :=
  match s with
  | EmptyString => false
  | String c s' =>
      if Ascii.eqb c "." then parseIPv4 whole
      else if Ascii.eqb c ":" then parseIPv6 whole
      else if Ascii.eqb c "%" then false
      else dispatch whole s'
  end.

Definition ParseIP (s : string) : bool := dispatch s s.

End net.

(** ** Package regexp *)

Module regexp.

(** The part of the syntax the program uses. *)
Inductive Regexp : Set :=
| BeginText                                  (* ^ *)
| EndText                                    (* $ *)
| CharClass (ranges : list (ascii * ascii))  (* [a-f0-9] *)
| Repeat (r : Regexp) (n : nat)              (* r{n} *)
| Seq (r1 r2 : Regexp).

(** A position in the text: whether it is the beginning, and what is left
    to read.  [step r p] lists the positions where a match of [r] that
    starts at [p] can end. *)
Fixpoint step (r : Regexp) (p : bool * string) : list (bool * string) :=
  match r with
  | BeginText => if fst p then [p] else []
  | EndText => match snd p with EmptyString => [p] | _ => [] end
  | CharClass ranges =>
      match snd p with
      | String c s' =>
          if existsb (fun lh => between (fst lh) (snd lh) c) ranges
          then [(false, s')] else []
      | EmptyString => []
      end
  | Repeat r' n => Nat.iter n (fun ps => flat_map (step r') ps) [p]
  | Seq r1 r2 => flat_map (step r2) (step r1 p)
  end.

Definition matchesAt (r : Regexp) (p : bool * string) : bool :=
  match step r p with [] => false | _ => true end.

Fixpoint search (r : Regexp) (s : string) : bool :=
  match s with
  | EmptyString => false
  | String _ s' => matchesAt r (false, s') || search r s'
  end.

(** [MatchString] of a compiled expression: some substring of [s]
    matches. *)
Definition MatchString (r : Regexp) (s : string) : bool :=
  matchesAt r (true, s) || search r s.

End regexp.

(** ** Package encoding/json, as far as the program reads the answer *)

Module json.

Fixpoint skipDigits (s : string) : string :=
  match s with
  | String c s' => if isDigit c then skipDigits s' else s
  | EmptyString => s
  end.

(** [isValidNumber]: the grammar of JSON numbers. *)
Definition isValidNumber (s : string) : bool :=
  let s := match s with String "-" r => r | _ => s end in
  match s with
  | EmptyString => false
  | String c r =>
      if negb (isDigit c) then false
      else
        let s := if Ascii.eqb c "0" then r else skipDigits r in
        let s :=
          match s with
          | String "." (String d r') =>
              if isDigit d then skipDigits r' else s
          | _ => s
          end in
        match s with
        | EmptyString => true
        | String e r' =>
            if Ascii.eqb e "e" || Ascii.eqb e "E" then
              match r' with
              | EmptyString => false
              | String sg r'' =>
                  let t := if Ascii.eqb sg "+" || Ascii.eqb sg "-"
                           then r'' else r' in
                  match t with
                  | EmptyString => false
                  | _ => match skipDigits t with
                         | EmptyString => true
                         | _ => false
                         end
                  end
              end
            else false
        end
  end.

(** A number of a JSON text that a [float64] field can take: its text,
    and the value the decoder stores for it, which is what
    [strconv.ParseFloat] makes of the text. *)
Record Number : Set := mkNumber {
  literal : string;
  value : float;
  literal_valid : isValidNumber literal = true;
  literal_value : strconv.ParseFloat literal = Some value
}.

End json.

(** * The program *)

(** WeatherData - structure of the JSON response from OpenWeather API *)
Record WeatherEntry : Set := mkWeatherEntry { Description : string }.
Record MainData : Set := mkMainData { Temperature : float }.
Record WeatherData : Set := mkWeatherData {
  Weather : list WeatherEntry;
  Main : MainData
}.

(** The body of the provider's answer, by what
    [json.NewDecoder(resp.Body).Decode(&weatherData)] makes of it: an error
    with the text [err] (the body is not JSON, a member has the wrong type,
    or a number does not fit its field), or a document whose ["weather"]
    array has the given descriptions and whose ["main"]["temp"] is the given
    number ([None] when the member is absent or null, which leaves the field
    at zero). *)
Inductive Body : Set :=
| Malformed (err : string)
| Document (descriptions : list string) (temp : option json.Number).

(** [Decode]: the error, or the structure filled from the document. *)
Definition Decode (b : Body) : WeatherData + string :=
  match b with
  | Malformed err => inr err
  | Document descriptions temp =>
      inl (mkWeatherData
             (map mkWeatherEntry descriptions)
             (mkMainData match temp with
                         | None => 0%float
                         | Some n => json.value n
                         end))
  end.

(** What [http.Get(url)] returns: an error, with the text of [err.Error()],
    or a response with a body. *)
Inductive GetResult : Set :=
| GetError (msg : string)
| GetResponse (body : Body).

(** What surrounds one call of a function of the program: the environment
    variables ([os.Getenv], the empty string for a variable that is not
    set), the query of the request ([r.URL.Query().Get]) and the network
    ([http.Get]). *)
Record World : Type := mkWorld {
  Getenv : string -> string;
  Query : string -> string;
  Get : string -> GetResult
}.

(** What a handler does to its [http.ResponseWriter]: it writes a status
    and a body, or it panics before writing anything, and the server closes
    the connection without an answer.  Headers are not modelled, and writes
    to the client are taken to succeed. *)
Inductive Outcome : Set :=
| Response (status : nat) (body : string)
| Panic (msg : string).

(** One run of a handler: the outcome, the URLs requested from the provider
    and the lines given to [log.Printf]. *)
Record Run : Set := mkRun {
  outcome : Outcome;
  requested : list string;
  logged : list string
}.

Definition StatusOK : nat := 200.
Definition StatusBadRequest : nat := 400.
Definition StatusInternalServerError : nat := 500.

Definition newline : string := bytes [10]%N.

(** [http.Error(w, msg, code)]: the status, and the message on a line. *)
Definition http_Error (msg : string) (code : nat) : Outcome :=
  Response code (msg ++ newline).

(** [apiKeyRegex = "^[a-f0-9]{32}$"] *)
Definition apiKeyRegex : regexp.Regexp :=
  regexp.Seq regexp.BeginText
    (regexp.Seq
       (regexp.Repeat (regexp.CharClass [("a", "f"); ("0", "9")]%char) 32)
       regexp.EndText).

(** getAPIKey - Fetch the OpenWeather API key *)
Definition getAPIKey (getenv : string -> string) : string * option string :=
  let apiKey := strings.TrimSpace (getenv "OPENWEATHER_API_KEY") in
  if String.eqb apiKey "" then
    (apiKey, Some "OPENWEATHER_API_KEY is not set")
  else if negb (regexp.MatchString apiKeyRegex apiKey) then
    (apiKey, Some "API key failed pattern check")
  else
    (apiKey, None).

(** validateLatitude - Verify that the given latitude is valid *)
Definition validateLatitude (raw : string) : float * option string :=
  match strconv.ParseFloat raw with
  | None => (0%float, Some ("invalid latitude format: " ++ raw))
  | Some lat =>
      if (lat <? -90)%float || (90 <? lat)%float then
        (0%float,
         Some ("latitude out of range (-90 to 90 degrees): " ++ fmt.verb_f 6 lat))
      else (lat, None)
  end.

(** validateLongitude - Verify that the given longitude is valid *)
Definition validateLongitude (raw : string) : float * option string :=
  match strconv.ParseFloat raw with
  | None => (0%float, Some ("invalid longitude format: " ++ raw))
  | Some lon =>
      if (lon <? -180)%float || (180 <? lon)%float then
        (0%float,
         Some ("longitude out of range (-180 to 180 degrees): "
               ++ fmt.verb_f 6 lon))
      else (lon, None)
  end.

(** healthCheck - provide a simple healthcheck response *)
Definition healthCheck (w : World) : Run :=
  mkRun (Response StatusOK "ok") [] [].

(** celsiusToFahrenheit - convert celsius to fahrenheit *)
Definition celsiusToFahrenheit (celsius : float) : float :=
  ((celsius * 9 / 5) + 32)%float.

(** getTemperature - Given temperature (in Celsius), determine hot/cold *)
Definition getTemperature (temp : float) : string :=
  if (24 <? temp)%float then
    "Hot (" ++ fmt.verb_f 0 (celsiusToFahrenheit temp) ++ "F / "
    ++ fmt.verb_f 0 temp ++ "C)"
  else if (temp <? 10)%float then
    "Cold (" ++ fmt.verb_f 0 (celsiusToFahrenheit temp) ++ "F / "
    ++ fmt.verb_f 0 temp ++ "C)"
  else
    "Moderate (" ++ fmt.verb_f 0 (celsiusToFahrenheit temp) ++ "F / "
    ++ fmt.verb_f 0 temp ++ "C)".

(** The URL of the request to the provider. *)
Definition requestURL (latitude longitude : float) (apiKey : string) : string :=
  "https://api.openweathermap.org/data/2.5/weather?lat="
  ++ fmt.verb_f 6 latitude ++ "&lon=" ++ fmt.verb_f 6 longitude
  ++ "&units=metric&appid=" ++ apiKey.

(** The text the handler builds with [fmt.Sprintf] for the answer. *)
Definition httpResponse (weatherCondition temperatureDesc : string) : string :=
  "Current Temperature:" ++ newline
  ++ "  Weather     : " ++ weatherCondition ++ newline
  ++ "  Temperature : " ++ temperatureDesc.

(** weatherHandler - http handler *)
Definition weatherHandler (w : World) : Run :=
  let '(apiKey, _) := getAPIKey (Getenv w) in
  if String.eqb apiKey "" then
    mkRun (http_Error "invalid API key" StatusInternalServerError) [] []
  else
    match validateLatitude (Query w "lat") with
    | (_, Some err) =>
        mkRun (http_Error "Invalid latitude" StatusBadRequest) []
              ["input error: " ++ err]
    | (latitude, None) =>
        match validateLongitude (Query w "lon") with
        | (_, Some err) =>
            mkRun (http_Error "Invalid longitude" StatusBadRequest) []
                  ["input error: " ++ err]
        | (longitude, None) =>
            let url := requestURL latitude longitude apiKey in
            match Get w url with
            | GetError err =>
                mkRun (http_Error err StatusInternalServerError) [url] []
            | GetResponse body =>
                match Decode body with
                | inr err =>
                    mkRun (http_Error err StatusInternalServerError) [url] []
                | inl weatherData =>
                    match Weather weatherData with
                    | [] =>
                        mkRun (Panic "runtime error: index out of range [0] with length 0")
                              [url] []
                    | first :: _ =>
                        let weatherCondition := Description first in
                        let temperature := Temperature (Main weatherData) in
                        let temperatureDesc := getTemperature temperature in
                        mkRun (Response StatusOK
                                 (fmt.Fprintf
                                    (httpResponse weatherCondition
                                                  temperatureDesc)))
                              [url] []
                    end
                end
            end
        end
    end.

(** GetHttpListenAddressAndPort - Get the IP addr and port we will listen on *)
Definition GetHttpListenAddressAndPort (getenv : string -> string)
  : string * option string :=
  let rawAddr := getenv "HTTP_LISTEN_ADDR" in
  let rawPort := getenv "HTTP_LISTEN_PORT" in
  if String.eqb (strings.TrimSpace rawAddr) "" then
    ("", Some "missing IP address (HTTP_LISTEN_ADDR not set)")
  else if String.eqb (strings.TrimSpace rawPort) "" then
    ("", Some "missing port (HTTP_LISTEN_PORT not set)")
  else if negb (net.ParseIP rawAddr) then
    ("", Some ("invalid IP address: " ++ rawAddr))
  else
    match strconv.Atoi rawPort with
    | None => ("", Some ("invalid port number: " ++ rawPort))
    | Some port =>
        if (port <? 1)%Z || (65535 <? port)%Z then
          ("", Some ("invalid port number: " ++ rawPort))
        else (rawAddr ++ ":" ++ fmt.verb_d port, None)
    end.

(** What [main] does with the environment it is started in: it ends the
    process with [log.Fatalf], or it registers the handlers, prints a line
    and calls [http.ListenAndServe] on an address.  What the listener does
    afterwards is not modelled. *)
Inductive Startup : Type :=
| Fatal (logged : string)
| Serving (routes : list (string * (World -> Run))) (printed : string)
          (listenAddress : string).

(** main *)
Definition main (getenv : string -> string) : Startup :=
  match GetHttpListenAddressAndPort getenv with
  | (_, Some err) => Fatal ("Error: " ++ err)
  | (listenAddress, None) =>
      Serving [("/health", healthCheck); ("/weather", weatherHandler)]
              ("Server listening on port " ++ listenAddress ++ "..." ++ newline)
              listenAddress
  end.

(** The handler up to the call of the classifier (the source's lines 80 to
    125): the run, when the handler returns or panics before it, and
    otherwise the URL requested and the values of [weatherCondition] and
    [temperature].  [weatherHandler_observe] below relates it to
    [weatherHandler]. *)
Definition observe (w : World) : Run + (string * string * float) :=
  let '(apiKey, _) := getAPIKey (Getenv w) in
  if String.eqb apiKey "" then
    inl (mkRun (http_Error "invalid API key" StatusInternalServerError) [] [])
  else
    match validateLatitude (Query w "lat") with
    | (_, Some err) =>
        inl (mkRun (http_Error "Invalid latitude" StatusBadRequest) []
                   ["input error: " ++ err])
    | (latitude, None) =>
        match validateLongitude (Query w "lon") with
        | (_, Some err) =>
            inl (mkRun (http_Error "Invalid longitude" StatusBadRequest) []
                       ["input error: " ++ err])
        | (longitude, None) =>
            let url := requestURL latitude longitude apiKey in
            match Get w url with
            | GetError err =>
                inl (mkRun (http_Error err StatusInternalServerError) [url] [])
            | GetResponse body =>
                match Decode body with
                | inr err =>
                    inl (mkRun (http_Error err StatusInternalServerError)
                               [url] [])
                | inl weatherData =>
                    match Weather weatherData with
                    | [] =>
                        inl (mkRun (Panic "runtime error: index out of range [0] with length 0")
                                   [url] [])
                    | first :: _ =>
                        inr (url, Description first,
                             Temperature (Main weatherData))
                    end
                end
            end
        end
    end.

(** ** Notions the statements use *)

(** The three labels of the classifier. *)
Definition label (temp : float) : string :=
  if (24 <? temp)%float then "Hot"
  else if (temp <? 10)%float then "Cold"
  else "Moderate".

(** [n] is the integer nearest to [m * 2 ^ e], the even one of the two when
    [m * 2 ^ e] is half way between them. *)
Definition nearest_integer (m e n : Z) : Prop :=
  (0 <= e -> n = m * 2 ^ e)%Z /\
  (e < 0 ->
   Z.abs (2 * m - 2 * n * 2 ^ (- e)) <= 2 ^ (- e) /\
   (Z.abs (2 * m - 2 * n * 2 ^ (- e)) = 2 ^ (- e) -> Z.even n = true))%Z.

(** A key of 32 characters, each a digit or a letter from [a] to [f]. *)
Definition lowerHex (c : ascii) : bool := between "a" "f" c || between "0" "9" c.

Definition hex32 (k : string) : Prop :=
  String.length k = 32%nat /\ allb lowerHex k = true.

(** ** Worlds the statements are tried on *)

(** The key of the repository's tests. *)
Definition fakeApiKey : string := "abcdef0123456789abcdef0123456789".

(** An environment that sets the three variables of the program. *)
Definition environment (key addr port : string) : string -> string :=
  fun name =>
    if String.eqb name "OPENWEATHER_API_KEY" then key
    else if String.eqb name "HTTP_LISTEN_ADDR" then addr
    else if String.eqb name "HTTP_LISTEN_PORT" then port
    else "".

(** The query [?lat=...&lon=...]. *)
Definition coordinates (lat lon : string) : string -> string :=
  fun name =>
    if String.eqb name "lat" then lat
    else if String.eqb name "lon" then lon
    else "".

(** A provider that gives the same answer to every request. *)
Definition answers (b : Body) : string -> GetResult :=
  fun _ => GetResponse b.

(** A network on which no request gets through: the error of [http.Get]
    is a [*url.Error], whose text has the method, the URL in quotes and
    the cause. *)
Definition unreachable : string -> GetResult :=
  fun url =>
    GetError ("Get " ++ bytes [34]%N ++ url ++ bytes [34]%N
              ++ ": dial tcp: lookup api.openweathermap.org: no such host").

(** The number 15 of a JSON text. *)
Definition fifteen : json.Number := json.mkNumber "15" 15 eq_refl eq_refl.

(** A text without a percent sign. *)
Definition noPercent (s : string) : bool :=
  allb (fun c => negb (Ascii.eqb c "%")) s.

(** What is left of [s] after [n] characters that satisfy [p]. *)
Fixpoint consume (p : ascii -> bool) (n : nat) (s : string) : option string :=
  match n, s with
  | O, _ => Some s
  | S n', String c s' => if p c then consume p n' s' else None
  | S _, EmptyString => None
  end.

(** ** White space and the characters of an address *)

(** One of the six ASCII white-space characters. *)
Definition isAsciiSpace (c : ascii) : bool :=
  between (byte_of 9) (byte_of 13) c || Ascii.eqb c " ".

(** An ASCII character that is not white space. *)
Definition isPlain (c : ascii) : bool :=
  (N_of_ascii c <? 128)%N && negb (isAsciiSpace c).

(** A text without ASCII white space. *)
Definition noSpace (s : string) : bool :=
  allb (fun c => negb (isAsciiSpace c)) s.

(** A character of an IP address in text: a hexadecimal digit, a dot or a
    colon. *)
Definition ipChar (c : ascii) : bool :=
  net.isHex c || Ascii.eqb c "." || Ascii.eqb c ":".

(** What [TrimSpace] needs of a table of white space: each entry that
    starts with an ASCII white-space character is that character alone, no
    entry starts with another ASCII character, and none is empty. *)
Definition trims (ps : list string) : Prop :=
  (forall c r, isAsciiSpace c = true ->
               strings.stripAny ps (String c r) = Some r) /\
  (forall c r, isPlain c = true -> strings.stripAny ps (String c r) = None) /\
  strings.stripAny ps "" = None.

(** ** Floats *)

Lemma is_nan_Prim2SF (x : float) :
  is_nan x = true <-> Prim2SF x = S754_nan.
Proof.
  unfold Prim2SF. destruct (is_nan x); split; intro H; try reflexivity;
    try discriminate.
  exfalso. destruct (is_zero x); [discriminate|].
  destruct (is_infinity x); [discriminate|].
  destruct (FloatOps.Z.frexp x) as [r ex].
  destruct (shr_fexp _ _ _ _ _) as [sh e'].
  destruct (shr_m sh); discriminate.
Qed.

Lemma is_nan_opp (x : float) : is_nan (- x)%float = is_nan x.
Proof.
  destruct (is_nan x) eqn:Hx.
  - apply is_nan_Prim2SF. rewrite opp_spec.
    apply is_nan_Prim2SF in Hx. now rewrite Hx.
  - destruct (is_nan (- x)%float) eqn:Ho; [|reflexivity].
    apply is_nan_Prim2SF in Ho. rewrite opp_spec in Ho.
    assert (Prim2SF x = S754_nan) as Hn
        by (destruct (Prim2SF x); simpl in Ho; congruence).
    apply is_nan_Prim2SF in Hn. congruence.
Qed.

Lemma is_finite_not_nan (x : float) : is_finite x = true -> is_nan x = false.
Proof.
  unfold is_finite. destruct (is_nan x); simpl; congruence.
Qed.

Lemma SFcompare_antisym (x y : spec_float) :
  SFcompare y x = option_map CompOpp (SFcompare x y).
Proof.
  destruct x as [sx|sx| |sx mx ex], y as [sy|sy| |sy my ey]; simpl;
    try reflexivity;
    try (destruct sx; reflexivity); try (destruct sy; reflexivity);
    try (destruct sx, sy; reflexivity).
  pose proof (Pos.compare_cont_antisym mx my Eq) as H.
  destruct sx, sy; simpl; try reflexivity;
    rewrite (Z.compare_antisym ex ey); destruct (ex ?= ey)%Z; simpl;
    try reflexivity; repeat f_equal; symmetry; exact H.
Qed.

Lemma SFcompare_refl (x : spec_float) :
  x <> S754_nan -> SFcompare x x = Some Eq.
Proof.
  destruct x as [s|s| |s m e]; simpl; intro H; try reflexivity;
    try congruence.
  - destruct s; reflexivity.
  - pose proof (Pos.compare_cont_refl m Eq) as R.
    rewrite Z.compare_refl.
    destruct s; f_equal; [change Eq with (CompOpp Eq) at 2; f_equal|]; exact R.
Qed.

(** Between two numbers, [x < y] fails exactly when [y <= x] holds. *)
Lemma ltb_negb_leb (x y : float) :
  is_nan x = false -> is_nan y = false ->
  (x <? y)%float = negb (y <=? x)%float.
Proof.
  intros Hx Hy. rewrite ltb_spec, leb_spec.
  assert (Prim2SF x <> S754_nan) as Nx
      by (intro E; apply is_nan_Prim2SF in E; congruence).
  assert (Prim2SF y <> S754_nan) as Ny
      by (intro E; apply is_nan_Prim2SF in E; congruence).
  unfold SFltb, SFleb. rewrite (SFcompare_antisym (Prim2SF x) (Prim2SF y)).
  destruct (SFcompare (Prim2SF x) (Prim2SF y)) as [[ | | ]|] eqn:E; simpl;
    try reflexivity.
  exfalso.
  destruct (Prim2SF x) as [sx|sx| |sx mx ex], (Prim2SF y) as [sy|sy| |sy my ey];
    try congruence; simpl in E; try discriminate; destruct sx, sy; discriminate.
Qed.

(** A NaN compares false with everything. *)
Lemma ltb_nan_l (x y : float) : is_nan x = true -> (x <? y)%float = false.
Proof.
  intro H. rewrite ltb_spec. apply is_nan_Prim2SF in H. now rewrite H.
Qed.

Lemma ltb_nan_r (x y : float) : is_nan y = true -> (x <? y)%float = false.
Proof.
  intro H. rewrite ltb_spec. apply is_nan_Prim2SF in H. rewrite H.
  unfold SFltb. destruct (Prim2SF x); reflexivity.
Qed.

Lemma leb_nan_r (x y : float) : is_nan y = true -> (x <=? y)%float = false.
Proof.
  intro H. rewrite leb_spec. apply is_nan_Prim2SF in H. rewrite H.
  unfold SFleb. destruct (Prim2SF x); reflexivity.
Qed.

Lemma Prim2SF_10 : Prim2SF 10 = S754_finite false 5629499534213120 (-49).
Proof. vm_compute. reflexivity. Qed.

Lemma Prim2SF_24 : Prim2SF 24 = S754_finite false 6755399441055744 (-48).
Proof. vm_compute. reflexivity. Qed.

(** A temperature below 10 is not above 24. *)
Lemma below_10_not_above_24 (t : float) :
  (t <? 10)%float = true -> (24 <? t)%float = false.
Proof.
  rewrite (ltb_spec t), (ltb_spec 24), Prim2SF_10, Prim2SF_24.
  unfold SFltb.
  destruct (Prim2SF t) as [s|s| |s m e]; cbn [SFcompare]; try congruence.
  - destruct s; congruence.
  - destruct s; [reflexivity|].
    destruct (Z.compare_spec e (-49)), (Z.compare_spec (-48) e);
      try congruence; try lia; try reflexivity.
Qed.

(** ** Strings *)

Lemma append_nil_r (s : string) : s ++ "" = s.
Proof. induction s as [|c s IH]; simpl; [reflexivity|now rewrite IH]. Qed.

Lemma append_assoc (s t u : string) : (s ++ t) ++ u = s ++ t ++ u.
Proof. induction s as [|c s IH]; simpl; [reflexivity|now rewrite IH]. Qed.

Lemma length_append (s t : string) :
  String.length (s ++ t) = (String.length s + String.length t)%nat.
Proof. induction s as [|c s IH]; simpl; [reflexivity|now rewrite IH]. Qed.

(** ** Rounding *)

Lemma nearestEven_spec (p q : Z) :
  (0 < q)%Z ->
  (Z.abs (2 * p - 2 * strconv.nearestEven p q * q) <= q /\
   (Z.abs (2 * p - 2 * strconv.nearestEven p q * q) = q ->
    Z.even (strconv.nearestEven p q) = true))%Z.
Proof.
  intro Hq. unfold strconv.nearestEven.
  pose proof (Z.div_mod p q ltac:(lia)) as Hdm.
  pose proof (Z.mod_pos_bound p q Hq) as Hr.
  set (d := (p / q)%Z) in *. set (r := (p mod q)%Z) in *.
  destruct (Z.compare_spec (2 * r) q) as [E|L|G].
  - destruct (Z.even d) eqn:Ev.
    + split; [nia|intros _; exact Ev].
    + split; [nia|intros _].
      rewrite Z.even_add, Ev. reflexivity.
  - split; [nia|intro A; exfalso; nia].
  - split; [nia|intro A; exfalso; nia].
Qed.

Lemma nearestEven_nonneg (p q : Z) :
  (0 <= p)%Z -> (0 < q)%Z -> (0 <= strconv.nearestEven p q)%Z.
Proof.
  intros Hp Hq. unfold strconv.nearestEven.
  pose proof (Z.div_pos p q Hp Hq).
  destruct (2 * (p mod q) ?= q)%Z; [destruct (Z.even (p / q))| |]; lia.
Qed.

Lemma fixed_0 (n : Z) : strconv.fixed n 0 = decimal n.
Proof.
  unfold strconv.fixed. simpl Z.of_nat. rewrite Z.pow_0_r, Z.div_1_r.
  apply append_nil_r.
Qed.

(** With no decimals, [%.0f] prints the integer nearest to the float. *)
Lemma verb_f_0_finite (x : float) (s : bool) (m : positive) (e : Z) :
  Prim2SF x = S754_finite s m e ->
  exists n : Z,
    (0 <= n)%Z /\
    fmt.verb_f 0 x = (if s then "-" else "") ++ decimal n /\
    nearest_integer (Z.pos m) e n.
Proof.
  intro H. unfold fmt.verb_f, strconv.FormatFloat. rewrite H.
  simpl Z.of_nat. rewrite Z.pow_0_r, Z.mul_1_r.
  unfold strconv.scaled.
  destruct (0 <=? - e)%Z eqn:E.
  - apply Z.leb_le in E. rewrite Z.mul_1_l.
    assert (0 < 2 ^ (- e))%Z as Hpow by (apply Z.pow_pos_nonneg; lia).
    exists (strconv.nearestEven (Z.pos m) (2 ^ (- e))).
    split; [apply nearestEven_nonneg; lia|].
    split; [now rewrite fixed_0|].
    split.
    + intro He. assert (e = 0)%Z as -> by lia. simpl.
      unfold strconv.nearestEven.
      rewrite Z.mod_1_r, Z.div_1_r. simpl. lia.
    + intros _. apply nearestEven_spec. exact Hpow.
  - apply Z.leb_gt in E. rewrite Z.opp_involutive.
    exists (Z.pos m * 2 ^ e)%Z.
    assert (0 < 2 ^ e)%Z by (apply Z.pow_pos_nonneg; lia).
    split; [nia|].
    split.
    + rewrite fixed_0. unfold strconv.nearestEven.
      rewrite Z.mod_1_r, Z.div_1_r. reflexivity.
    + split; [reflexivity|lia].
Qed.

(** ** The classifier *)

Lemma verb_f_0_zero (x : float) (s : bool) :
  Prim2SF x = S754_zero s ->
  fmt.verb_f 0 x = (if s then "-" else "") ++ "0".
Proof.
  intro H. unfold fmt.verb_f, strconv.FormatFloat. now rewrite H, fixed_0.
Qed.

Lemma getTemperature_label (t : float) :
  getTemperature t =
  label t ++ " (" ++ fmt.verb_f 0 (celsiusToFahrenheit t) ++ "F / "
  ++ fmt.verb_f 0 t ++ "C)".
Proof.
  unfold getTemperature, label.
  destruct (24 <? t)%float; [reflexivity|].
  destruct (t <? 10)%float; reflexivity.
Qed.

(** C7: the classifier labels a temperature above 24 "Hot", one below 10
    "Cold" and any other "Moderate", and shows after the label the
    Fahrenheit value [celsius * 9 / 5 + 32] and the Celsius value, each
    printed as the nearest integer; the four temperatures of the
    specification give the four texts it lists. *)
Theorem getTemperature_classifies :
  (forall t,
     getTemperature t =
     label t ++ " (" ++ fmt.verb_f 0 (celsiusToFahrenheit t) ++ "F / "
     ++ fmt.verb_f 0 t ++ "C)") /\
  (forall t, (24 <? t)%float = true -> label t = "Hot") /\
  (forall t, (t <? 10)%float = true -> label t = "Cold") /\
  (forall t, (24 <? t)%float = false -> (t <? 10)%float = false ->
             label t = "Moderate") /\
  (forall x s m e,
     Prim2SF x = S754_finite s m e ->
     exists n : Z,
       (0 <= n)%Z /\
       fmt.verb_f 0 x = (if s then "-" else "") ++ decimal n /\
       nearest_integer (Z.pos m) e n) /\
  (forall x s,
     Prim2SF x = S754_zero s ->
     fmt.verb_f 0 x = (if s then "-" else "") ++ "0") /\
  getTemperature 25 = "Hot (77F / 25C)" /\
  getTemperature 15 = "Moderate (59F / 15C)" /\
  getTemperature 5 = "Cold (41F / 5C)" /\
  getTemperature (-5) = "Cold (23F / -5C)".
Proof.
  split; [exact getTemperature_label|].
  split; [intros t H; unfold label; now rewrite H|].
  split; [intros t H; unfold label;
          now rewrite (below_10_not_above_24 t H), H|].
  split; [intros t H1 H2; unfold label; now rewrite H1, H2|].
  split; [exact verb_f_0_finite|].
  split; [exact verb_f_0_zero|].
  repeat split; vm_compute; reflexivity.
Qed.

(** The theorem at 25 degrees: the label, and the two roundings. *)
Lemma getTemperature_classifies_witness :
  (24 <? 25)%float = true /\ label 25 = "Hot" /\
  (exists n : Z,
      (0 <= n)%Z /\
      fmt.verb_f 0 (celsiusToFahrenheit 25) = "" ++ decimal n /\
      nearest_integer 5418393301680128 (-46) n).
Proof.
  destruct getTemperature_classifies as (_ & Hhot & _ & _ & Hround & _).
  split; [reflexivity|].
  split; [apply Hhot; reflexivity|].
  apply (Hround (celsiusToFahrenheit 25) false 5418393301680128%positive
                (-46)%Z).
  vm_compute. reflexivity.
Defined.

(** C8: [celsiusToFahrenheit] computes [celsius * 9 / 5 + 32] in float64
    arithmetic; it maps 0 to 32, 100 to 212 and -40 to -40, and 37 and
    -273.15 to within 0.001 of 98.6 and -459.67. *)
Theorem celsiusToFahrenheit_values :
  (forall celsius,
     celsiusToFahrenheit celsius = (celsius * 9 / 5 + 32)%float) /\
  celsiusToFahrenheit 0 = 32%float /\
  celsiusToFahrenheit 100 = 212%float /\
  celsiusToFahrenheit (-40) = (-40)%float /\
  (abs (celsiusToFahrenheit 37 - 98.6) <=? 0.001)%float = true /\
  (abs (celsiusToFahrenheit (-273.15) - (-459.67)) <=? 0.001)%float = true.
Proof.
  split; [reflexivity|]. repeat split; vm_compute; reflexivity.
Qed.

(** ** The pattern of the key *)

Lemma iter_flat_map_nil {A : Type} (f : A -> list A) (n : nat) :
  Nat.iter n (fun ps => flat_map f ps) [] = [].
Proof. induction n as [|n IH]; simpl; [reflexivity|now rewrite IH]. Qed.

Lemma step_class (b : bool) (s : string) :
  regexp.step (regexp.CharClass [("a", "f"); ("0", "9")]%char) (b, s) =
  match s with
  | String c s' => if lowerHex c then [(false, s')] else []
  | EmptyString => []
  end.
Proof.
  destruct s as [|c s']; [reflexivity|].
  cbn [regexp.step snd existsb fst]. unfold lowerHex.
  now rewrite orb_false_r.
Qed.

Lemma step_Repeat (r : regexp.Regexp) (n : nat) (p : bool * string) :
  regexp.step (regexp.Repeat r n) p =
  Nat.iter n (fun ps => flat_map (regexp.step r) ps) [p].
Proof. reflexivity. Qed.

Lemma step_Seq (r1 r2 : regexp.Regexp) (p : bool * string) :
  regexp.step (regexp.Seq r1 r2) p =
  flat_map (regexp.step r2) (regexp.step r1 p).
Proof. reflexivity. Qed.

Lemma step_repeat_class (n : nat) (b : bool) (s : string) :
  exists b',
    regexp.step
      (regexp.Repeat (regexp.CharClass [("a", "f"); ("0", "9")]%char) n)
      (b, s) =
    match consume lowerHex n s with
    | Some r => [(b', r)]
    | None => []
    end.
Proof.
  rewrite step_Repeat. revert b s.
  induction n as [|n IH]; intros b s.
  - exists b. reflexivity.
  - rewrite Nat.iter_succ_r. cbn [flat_map].
    rewrite app_nil_r, step_class.
    destruct s as [|c s'].
    + exists b. cbn [consume]. apply iter_flat_map_nil.
    + cbn [consume]. destruct (lowerHex c).
      * apply IH.
      * exists b. apply iter_flat_map_nil.
Qed.

Lemma consume_all (p : ascii -> bool) (n : nat) (s : string) :
  consume p n s = Some "" <-> String.length s = n /\ allb p s = true.
Proof.
  revert s. induction n as [|n IH]; intros [|c s']; simpl.
  - split; [intros _; split; reflexivity|reflexivity].
  - split; [discriminate|intros [H _]; discriminate].
  - split; [discriminate|intros [H _]; discriminate].
  - destruct (p c); simpl.
    + rewrite IH. split; intros [H1 H2]; split; congruence.
    + split; [discriminate|intros [_ H]; discriminate].
Qed.

Lemma search_anchored (r : regexp.Regexp) (s : string) :
  regexp.search (regexp.Seq regexp.BeginText r) s = false.
Proof. induction s as [|c s IH]; simpl; [reflexivity|exact IH]. Qed.

(** The pattern matches the keys of 32 lower-case hexadecimal digits and
    no other text. *)
Lemma apiKeyRegex_matches (k : string) :
  regexp.MatchString apiKeyRegex k = true <-> hex32 k.
Proof.
  unfold regexp.MatchString, apiKeyRegex. rewrite search_anchored, orb_false_r.
  unfold regexp.matchesAt, hex32. rewrite <- consume_all.
  rewrite !step_Seq.
  change (regexp.step regexp.BeginText (true, k)) with [(true, k)].
  cbn [flat_map]. rewrite app_nil_r, step_Seq.
  destruct (step_repeat_class 32 true k) as [b' E]. rewrite E.
  destruct (consume lowerHex 32 k) as [[|c r]|]; simpl; split; congruence.
Qed.

(** ** The key *)

(** C6: [getAPIKey] trims the value of OPENWEATHER_API_KEY; it fails with
    the message "OPENWEATHER_API_KEY is not set" when nothing is left, fails
    when what is left is not 32 lower-case hexadecimal digits, and otherwise
    succeeds with exactly the trimmed key. *)
Theorem getAPIKey_spec (getenv : string -> string) :
  let key := strings.TrimSpace (getenv "OPENWEATHER_API_KEY") in
  (key = "" ->
   getAPIKey getenv = ("", Some "OPENWEATHER_API_KEY is not set")) /\
  (key <> "" -> ~ hex32 key ->
   getAPIKey getenv = (key, Some "API key failed pattern check")) /\
  (hex32 key -> getAPIKey getenv = (key, None)).
Proof.
  intro key. unfold getAPIKey. fold key.
  split; [|split].
  - intros ->. reflexivity.
  - intros Hne Hnot. apply String.eqb_neq in Hne. rewrite Hne.
    destruct (regexp.MatchString apiKeyRegex key) eqn:M.
    + apply apiKeyRegex_matches in M. contradiction.
    + reflexivity.
  - intro Hk.
    assert (key <> "") as Hne
        by (intros E; destruct Hk as [L _]; rewrite E in L; discriminate).
    apply String.eqb_neq in Hne. rewrite Hne.
    apply apiKeyRegex_matches in Hk. now rewrite Hk.
Qed.

(** The theorem on the key of the repository's tests, with white space
    around it. *)
Lemma getAPIKey_spec_witness :
  hex32 fakeApiKey /\
  getAPIKey (environment ("  " ++ fakeApiKey ++ newline) "" "")
  = (fakeApiKey, None).
Proof.
  assert (hex32 fakeApiKey) as H by (split; reflexivity).
  split; [exact H|].
  apply (getAPIKey_spec (environment ("  " ++ fakeApiKey ++ newline) "" "")).
  exact H.
Defined.

(** ** Decimal numerals *)

Lemma digitsVal_acc (d : Decimal.uint) (acc : positive) :
  strconv.digitsVal (Z.pos acc) (NilEmpty.string_of_uint d)
  = Z.pos (Pos.of_uint_acc d acc).
Proof.
  revert acc. induction d; intro acc;
    cbn [NilEmpty.string_of_uint strconv.digitsVal Pos.of_uint_acc];
    [reflexivity|..];
    rewrite <- IHd; f_equal; unfold digitVal;
    rewrite ?Pos2Z.inj_add, ?Pos2Z.inj_mul;
    match goal with
    | |- context [Z.of_N (N_of_ascii ?c)] =>
        let v := eval vm_compute in (Z.of_N (N_of_ascii c)) in
        change (Z.of_N (N_of_ascii c)) with v
    end; lia.
Qed.

Lemma digitsVal_of_uint (d : Decimal.uint) :
  strconv.digitsVal 0 (NilEmpty.string_of_uint d) = Z.of_N (Pos.of_uint d).
Proof.
  induction d; cbn [NilEmpty.string_of_uint strconv.digitsVal Pos.of_uint];
    [reflexivity|exact IHd|..]; apply digitsVal_acc.
Qed.

Lemma digits_uint (s : string) :
  allb isDigit s = true -> exists d, NilEmpty.uint_of_string s = Some d.
Proof.
  induction s as [|c s IH]; intro H; [exists Decimal.Nil; reflexivity|].
  cbn [allb] in H. apply andb_prop in H. destruct H as [Hc Hs].
  destruct (IH Hs) as [d E]. cbn [NilEmpty.uint_of_string]. rewrite E.
  destruct c as [[|] [|] [|] [|] [|] [|] [|] [|]]; vm_compute in Hc;
    try discriminate Hc; eexists; reflexivity.
Qed.

Lemma decimal_digitsVal (c : ascii) (r : string) :
  allb isDigit (String c r) = true -> c <> "0"%char ->
  decimal (strconv.digitsVal 0 (String c r)) = String c r.
Proof.
  intros H Hc. destruct (digits_uint _ H) as [d E].
  apply NilEmpty.sus in E. rewrite <- E, digitsVal_of_uint.
  unfold decimal. rewrite N2Z.id.
  change (Pos.of_uint d) with (N.of_uint d).
  rewrite DecimalN.Unsigned.to_of.
  assert (Decimal.unorm d = d) as ->.
  { destruct d; cbn [NilEmpty.string_of_uint] in E; try discriminate E;
      try reflexivity.
    injection E as E1 _. congruence. }
  destruct d; try reflexivity. discriminate E.
Qed.

Lemma Atoi_unsigned (c : ascii) (r : string) (p : Z) :
  isDigit c = true -> strconv.Atoi (String c r) = Some p ->
  allb isDigit (String c r) = true /\ p = strconv.digitsVal 0 (String c r).
Proof.
  intros Hc. unfold strconv.Atoi.
  assert ((let '(neg, ds) :=
      match String c r with
      | String "-" r => (true, r)
      | String "+" r => (false, r)
      | _ => (false, String c r)
      end in (neg, ds)) = (false, String c r)) as E.
  { destruct c as [[|] [|] [|] [|] [|] [|] [|] [|]]; vm_compute in Hc;
      try discriminate Hc; reflexivity. }
  revert E. destruct (match String c r with
      | String "-" r => (true, r)
      | String "+" r => (false, r)
      | _ => (false, String c r)
      end) as [ng ds]. intro E. injection E as -> ->.
  destruct (allb isDigit (String c r)); [|discriminate].
  cbv zeta.
  match goal with |- (if ?b then _ else _) = _ -> _ => destruct b end;
    [|discriminate].
  intro E. injection E as <-. split; reflexivity.
Qed.

(** [Atoi] then [Itoa] gives back a port written with digits only and no
    leading zero. *)
Lemma decimal_Atoi (port : string) (p : Z) :
  strconv.Atoi port = Some p -> allb isDigit port = true ->
  (forall r, port <> String "0" r) ->
  decimal p = port.
Proof.
  intros A D Z0. destruct port as [|c r]; [discriminate A|].
  pose proof D as D'. cbn [allb] in D'. apply andb_prop in D'.
  destruct D' as [Hc _].
  destruct (Atoi_unsigned c r p Hc A) as [_ ->].
  apply decimal_digitsVal; [exact D|].
  intros ->. exact (Z0 r eq_refl).
Qed.

(** ** The listen address *)

(** C9: [GetHttpListenAddressAndPort] fails with a message of its own for a
    blank address, for a blank port, for an address that is not an IP
    literal and for a port that is not an integer from 1 to 65535, the blank
    address coming first; with a valid address and port it returns the
    address, a colon and the port number, which is the text of the port
    itself when that is written with digits only and no leading zero. *)
Theorem GetHttpListenAddressAndPort_spec (getenv : string -> string) :
  let addr := getenv "HTTP_LISTEN_ADDR" in
  let port := getenv "HTTP_LISTEN_PORT" in
  let missingAddr := "missing IP address (HTTP_LISTEN_ADDR not set)" in
  let missingPort := "missing port (HTTP_LISTEN_PORT not set)" in
  let invalidAddr := "invalid IP address: " ++ addr in
  let invalidPort := "invalid port number: " ++ port in
  (strings.TrimSpace addr = "" ->
   GetHttpListenAddressAndPort getenv = ("", Some missingAddr)) /\
  (strings.TrimSpace addr <> "" -> strings.TrimSpace port = "" ->
   GetHttpListenAddressAndPort getenv = ("", Some missingPort)) /\
  (strings.TrimSpace addr <> "" -> strings.TrimSpace port <> "" ->
   net.ParseIP addr = false ->
   GetHttpListenAddressAndPort getenv = ("", Some invalidAddr)) /\
  (strings.TrimSpace addr <> "" -> strings.TrimSpace port <> "" ->
   net.ParseIP addr = true ->
   ~ (exists p, strconv.Atoi port = Some p /\ 1 <= p <= 65535)%Z ->
   GetHttpListenAddressAndPort getenv = ("", Some invalidPort)) /\
  (forall p,
     strings.TrimSpace addr <> "" -> strings.TrimSpace port <> "" ->
     net.ParseIP addr = true ->
     strconv.Atoi port = Some p -> (1 <= p <= 65535)%Z ->
     GetHttpListenAddressAndPort getenv = (addr ++ ":" ++ decimal p, None) /\
     (allb isDigit port = true -> (forall r, port <> String "0" r) ->
      GetHttpListenAddressAndPort getenv = (addr ++ ":" ++ port, None))) /\
  missingAddr <> missingPort /\ missingAddr <> invalidAddr /\
  missingAddr <> invalidPort /\ missingPort <> invalidAddr /\
  missingPort <> invalidPort /\ invalidAddr <> invalidPort.
Proof.
  intros addr port missingAddr missingPort invalidAddr invalidPort.
  unfold GetHttpListenAddressAndPort. fold addr port.
  split; [|split; [|split; [|split; [|split]]]].
  - intros ->. reflexivity.
  - intros Ha ->. apply String.eqb_neq in Ha. now rewrite Ha.
  - intros Ha Hp Hip. apply String.eqb_neq in Ha, Hp.
    now rewrite Ha, Hp, Hip.
  - intros Ha Hp Hip Hbad. apply String.eqb_neq in Ha, Hp.
    rewrite Ha, Hp, Hip. cbn [negb].
    destruct (strconv.Atoi port) as [p|]; [|reflexivity].
    destruct ((p <? 1)%Z || (65535 <? p)%Z) eqn:R; [reflexivity|].
    exfalso. apply Hbad. exists p. split; [reflexivity|].
    apply orb_false_iff in R. destruct R as [R1 R2].
    apply Z.ltb_ge in R1, R2. lia.
  - intros p Ha Hp Hip Hat Hr. apply String.eqb_neq in Ha, Hp.
    rewrite Ha, Hp, Hip, Hat. cbn [negb].
    assert ((p <? 1)%Z = false) as -> by (apply Z.ltb_ge; lia).
    assert ((65535 <? p)%Z = false) as -> by (apply Z.ltb_ge; lia).
    cbn [orb]. unfold fmt.verb_d, strconv.Itoa.
    assert ((p <? 0)%Z = false) as -> by (apply Z.ltb_ge; lia).
    split; [reflexivity|].
    intros D Z0. now rewrite (decimal_Atoi port p Hat D Z0).
  - unfold missingAddr, missingPort, invalidAddr, invalidPort.
    repeat split; simpl; discriminate.
Qed.

(** The theorem on the address and port of the repository's Makefile and
    tests. *)
Lemma GetHttpListenAddressAndPort_spec_witness :
  GetHttpListenAddressAndPort (environment "" "127.0.0.1" "8080")
  = ("127.0.0.1:8080", None).
Proof.
  destruct (GetHttpListenAddressAndPort_spec
              (environment "" "127.0.0.1" "8080"))
    as (_ & _ & _ & _ & H & _).
  refine (proj2 (H 8080%Z _ _ _ _ _) _ _).
  - vm_compute. discriminate.
  - vm_compute. discriminate.
  - reflexivity.
  - reflexivity.
  - lia.
  - reflexivity.
  - discriminate.
Defined.

(** ** The coordinates *)

Lemma validateLatitude_unparsable (raw : string) :
  strconv.ParseFloat raw = None ->
  validateLatitude raw = (0%float, Some ("invalid latitude format: " ++ raw)).
Proof. intro H. unfold validateLatitude. now rewrite H. Qed.

(** For a text that parses to a number, the validator returns the number
    when it is in [-90, 90], bounds included, and an error otherwise. *)
Lemma validateLatitude_number (raw : string) (lat : float) :
  strconv.ParseFloat raw = Some lat -> is_nan lat = false ->
  validateLatitude raw =
  if ((-90 <=? lat) && (lat <=? 90))%float then (lat, None)
  else (0%float,
        Some ("latitude out of range (-90 to 90 degrees): " ++ fmt.verb_f 6 lat)).
Proof.
  intros H N. unfold validateLatitude. rewrite H.
  rewrite (ltb_negb_leb lat (-90) N eq_refl), (ltb_negb_leb 90 lat eq_refl N).
  destruct (-90 <=? lat)%float, (lat <=? 90)%float; reflexivity.
Qed.

(** A text that parses to a NaN passes both comparisons. *)
Lemma validateLatitude_nan (raw : string) (lat : float) :
  strconv.ParseFloat raw = Some lat -> is_nan lat = true ->
  validateLatitude raw = (lat, None).
Proof.
  intros H N. unfold validateLatitude. rewrite H.
  now rewrite (ltb_nan_l lat (-90) N), (ltb_nan_r 90 lat N).
Qed.

Lemma validateLongitude_unparsable (raw : string) :
  strconv.ParseFloat raw = None ->
  validateLongitude raw
  = (0%float, Some ("invalid longitude format: " ++ raw)).
Proof. intro H. unfold validateLongitude. now rewrite H. Qed.

Lemma validateLongitude_number (raw : string) (lon : float) :
  strconv.ParseFloat raw = Some lon -> is_nan lon = false ->
  validateLongitude raw =
  if ((-180 <=? lon) && (lon <=? 180))%float then (lon, None)
  else (0%float,
        Some ("longitude out of range (-180 to 180 degrees): "
              ++ fmt.verb_f 6 lon)).
Proof.
  intros H N. unfold validateLongitude. rewrite H.
  rewrite (ltb_negb_leb lon (-180) N eq_refl), (ltb_negb_leb 180 lon eq_refl N).
  destruct (-180 <=? lon)%float, (lon <=? 180)%float; reflexivity.
Qed.

Lemma validateLongitude_nan (raw : string) (lon : float) :
  strconv.ParseFloat raw = Some lon -> is_nan lon = true ->
  validateLongitude raw = (lon, None).
Proof.
  intros H N. unfold validateLongitude. rewrite H.
  now rewrite (ltb_nan_l lon (-180) N), (ltb_nan_r 180 lon N).
Qed.

(** C5, on the code: the text "NaN" parses to a float that is in neither
    range, and both validators return it with no error. *)
Theorem validators_accept_NaN :
  strconv.ParseFloat "NaN" = Some nan /\
  ((-90 <=? nan) && (nan <=? 90))%float = false /\
  ((-180 <=? nan) && (nan <=? 180))%float = false /\
  validateLatitude "NaN" = (nan, None) /\
  validateLongitude "NaN" = (nan, None).
Proof. repeat split; vm_compute; reflexivity. Qed.

(** ** The numbers a request can bring to the classifier *)

Lemma special_nan (s : string) (f : float) (n : nat) :
  strconv.special s = Some (f, n) -> is_nan f = true ->
  exists r, s = String "n" r \/ s = String "N" r.
Proof.
  unfold strconv.special. destruct s as [|c r]; [discriminate|].
  intros H N.
  assert (forall (ng : bool) (k : nat) (t : string),
             (let n0 := strconv.commonPrefixLenIgnoreCase t "infinity" in
              let n1 := if (3 <? n0)%nat && (n0 <? 8)%nat then 3%nat else n0 in
              if (n1 =? 3)%nat || (n1 =? 8)%nat
              then Some (if ng then neg_infinity else infinity, (k + n1)%nat)
              else None) = Some (f, n) -> False) as Inf.
  { intros ng k t. cbv zeta.
    match goal with |- (if ?b then _ else _) = _ -> _ => destruct b end;
      [|discriminate].
    intro E. injection E as E _. subst f. destruct ng; discriminate. }
  destruct (Ascii.eqb c "+"); [exact (False_ind _ (Inf false 1%nat r H))|].
  destruct (Ascii.eqb c "-"); [exact (False_ind _ (Inf true 1%nat r H))|].
  destruct (Ascii.eqb c "i" || Ascii.eqb c "I");
    [exact (False_ind _ (Inf false 0%nat (String c r) H))|].
  destruct (Ascii.eqb c "n") eqn:E1.
  - apply Ascii.eqb_eq in E1. subst c. exists r. now left.
  - destruct (Ascii.eqb c "N") eqn:E2; [|discriminate].
    apply Ascii.eqb_eq in E2. subst c. exists r. now right.
Qed.

(** [ParseFloat] gives a NaN only for a text that starts with [n] or [N]. *)
Lemma ParseFloat_nan (s : string) (f : float) :
  strconv.ParseFloat s = Some f -> is_nan f = true ->
  exists r, s = String "n" r \/ s = String "N" r.
Proof.
  unfold strconv.ParseFloat.
  destruct (strconv.special s) as [[f0 n]|] eqn:S.
  - destruct (n =? String.length s)%nat; [|discriminate].
    intros E N. injection E as <-. exact (special_nan s f0 n S N).
  - destruct (strconv.readFloat s) as [r|]; [|discriminate].
    destruct (strconv.unread r); [|discriminate].
    destruct (strconv.sawUnderscore r && negb (strconv.underscoreOK s));
      [discriminate|].
    match goal with
    | |- (if is_finite ?x then _ else _) = _ -> _ =>
        destruct (is_finite x) eqn:F; [|discriminate]
    end.
    intros E N. injection E as <-. apply is_finite_not_nan in F.
    destruct (strconv.neg r); [rewrite is_nan_opp in N|]; congruence.
Qed.

(** A JSON number does not start with a letter. *)
Lemma isValidNumber_no_nan (r : string) :
  json.isValidNumber (String "n" r) = false /\
  json.isValidNumber (String "N" r) = false.
Proof. split; reflexivity. Qed.

(** No answer of the provider decodes to a NaN temperature. *)
Lemma Decode_not_nan (b : Body) (weatherData : WeatherData) :
  Decode b = inl weatherData ->
  is_nan (Temperature (Main weatherData)) = false.
Proof.
  unfold Decode. destruct b as [err|ds [n|]]; [discriminate| |].
  - intro E. injection E as <-. cbn [Main Temperature].
    destruct (is_nan (json.value n)) eqn:N; [|reflexivity].
    destruct (ParseFloat_nan _ _ (json.literal_value n) N) as [r [E|E]];
      pose proof (json.literal_valid n) as V; rewrite E in V;
      destruct (isValidNumber_no_nan r); congruence.
  - intro E. injection E as <-. reflexivity.
Qed.

(** ** The handler *)

(** The case analysis that follows the handler: the key, the two
    coordinates, the request, the decoding and the list of conditions. *)
Ltac walk_handler w :=
  destruct (getAPIKey (Getenv w)) as [apiKey e];
  destruct (String.eqb apiKey "");
  [|destruct (validateLatitude (Query w "lat")) as [latitude [e1|]];
    [|destruct (validateLongitude (Query w "lon")) as [longitude [e2|]];
      [|destruct (Get w (requestURL latitude longitude apiKey)) as [e3|body];
        [|destruct (Decode body) as [weatherData|e4] eqn:Decoded;
          [destruct (Weather weatherData)|]]]]].

(** The handler is [observe] followed by the classifier and the answer. *)
Lemma weatherHandler_observe (w : World) :
  weatherHandler w =
  match observe w with
  | inl run => run
  | inr (url, weatherCondition, temperature) =>
      mkRun (Response StatusOK
               (fmt.Fprintf
                  (httpResponse weatherCondition (getTemperature temperature))))
            [url] []
  end.
Proof. unfold weatherHandler, observe. walk_handler w; reflexivity. Qed.

(** The temperature the handler classifies is never a NaN. *)
Lemma observe_not_nan (w : World) (url c : string) (t : float) :
  observe w = inr (url, c, t) -> is_nan t = false.
Proof.
  unfold observe. walk_handler w; try discriminate.
  intro E. injection E as _ _ <-. exact (Decode_not_nan body weatherData Decoded).
Qed.

Lemma weatherHandler_unset_key (w : World) :
  strings.TrimSpace (Getenv w "OPENWEATHER_API_KEY") = "" ->
  weatherHandler w
  = mkRun (http_Error "invalid API key" StatusInternalServerError) [] [].
Proof.
  intro H. unfold weatherHandler, getAPIKey. rewrite H. reflexivity.
Qed.

(** A run that asks nothing of the provider ends with one of three fixed
    messages. *)
Lemma weatherHandler_before_request (w : World) :
  requested (weatherHandler w) = [] ->
  outcome (weatherHandler w)
  = http_Error "invalid API key" StatusInternalServerError \/
  outcome (weatherHandler w)
  = http_Error "Invalid latitude" StatusBadRequest \/
  outcome (weatherHandler w)
  = http_Error "Invalid longitude" StatusBadRequest.
Proof.
  unfold weatherHandler. walk_handler w; try discriminate; intros _;
    [left|right; left|right; right]; reflexivity.
Qed.

(** *** A request with a key that is not blank and with coordinates the
    validators accept *)

Section GoodRequest.

Variable w : World.
Variable key : string.
Variable err : option string.
Variables latitude longitude : float.

Hypothesis key_read : getAPIKey (Getenv w) = (key, err).
Hypothesis key_not_blank : key <> "".
Hypothesis latitude_valid : validateLatitude (Query w "lat") = (latitude, None).
Hypothesis longitude_valid :
  validateLongitude (Query w "lon") = (longitude, None).

(** The handler then asks the provider, whatever the check of the key
    said, and the rest depends on the answer. *)
Lemma weatherHandler_good_request :
  weatherHandler w =
  let url := requestURL latitude longitude key in
  match Get w url with
  | GetError msg =>
      mkRun (http_Error msg StatusInternalServerError) [url] []
  | GetResponse body =>
      match Decode body with
      | inr msg => mkRun (http_Error msg StatusInternalServerError) [url] []
      | inl weatherData =>
          match Weather weatherData with
          | [] =>
              mkRun (Panic "runtime error: index out of range [0] with length 0")
                    [url] []
          | first :: _ =>
              mkRun (Response StatusOK
                       (fmt.Fprintf
                          (httpResponse
                             (Description first)
                             (getTemperature (Temperature (Main weatherData))))))
                    [url] []
          end
      end
  end.
Proof.
  unfold weatherHandler. rewrite key_read.
  apply String.eqb_neq in key_not_blank.
  now rewrite key_not_blank, latitude_valid, longitude_valid.
Qed.

Lemma weatherHandler_ignores_key_error :
  requested (weatherHandler w) = [requestURL latitude longitude key].
Proof.
  rewrite weatherHandler_good_request. cbv zeta.
  destruct (Get w (requestURL latitude longitude key)) as [e|body];
    [reflexivity|].
  destruct (Decode body) as [weatherData|e]; [|reflexivity].
  destruct (Weather weatherData); reflexivity.
Qed.

(** An error of [http.Get] or of the decoder is sent to the client as it
    is. *)
Lemma weatherHandler_relays_errors :
  (forall msg,
     Get w (requestURL latitude longitude key) = GetError msg ->
     outcome (weatherHandler w)
     = Response StatusInternalServerError (msg ++ newline)) /\
  (forall body msg,
     Get w (requestURL latitude longitude key) = GetResponse body ->
     Decode body = inr msg ->
     outcome (weatherHandler w)
     = Response StatusInternalServerError (msg ++ newline)).
Proof.
  rewrite weatherHandler_good_request. cbv zeta.
  split; [intros msg G|intros body msg G D]; rewrite G; [|rewrite D];
    reflexivity.
Qed.

(** An answer that decodes with no condition makes the handler panic. *)
Lemma weatherHandler_empty_list_panics (body : Body)
      (weatherData : WeatherData) :
  Get w (requestURL latitude longitude key) = GetResponse body ->
  Decode body = inl weatherData -> Weather weatherData = [] ->
  outcome (weatherHandler w)
  = Panic "runtime error: index out of range [0] with length 0".
Proof.
  intros G D E. rewrite weatherHandler_good_request. cbv zeta.
  now rewrite G, D, E.
Qed.

End GoodRequest.

(** C1, on the code: with a good key and good coordinates, an answer of the
    provider that decodes and has no weather condition (such as the JSON
    object of an error, which has no "weather" member) makes the handler
    index an empty list: it panics and no answer is written. *)
Theorem weatherHandler_empty_conditions :
  let w := mkWorld (environment fakeApiKey "" "")
                   (coordinates "37.7749" "-122.4194")
                   (answers (Document [] None)) in
  Decode (Document [] None) = inl (mkWeatherData [] (mkMainData 0)) /\
  weatherHandler w =
  mkRun (Panic "runtime error: index out of range [0] with length 0")
        ["https://api.openweathermap.org/data/2.5/weather?lat=37.774900&lon=-122.419400&units=metric&appid=abcdef0123456789abcdef0123456789"]
        [].
Proof. split; vm_compute; reflexivity. Qed.

(** C2, on the code: a key in upper case fails the check of [getAPIKey],
    and the handler still validates the coordinates, asks the provider with
    that key and answers 200. *)
Theorem weatherHandler_malformed_key :
  let w := mkWorld (environment "ABCDEF0123456789ABCDEF0123456789" "" "")
                   (coordinates "37.7749" "-122.4194")
                   (answers (Document ["clear sky"] (Some fifteen))) in
  getAPIKey (Getenv w)
  = ("ABCDEF0123456789ABCDEF0123456789", Some "API key failed pattern check") /\
  weatherHandler w =
  mkRun (Response StatusOK
           ("Current Temperature:" ++ newline
            ++ "  Weather     : clear sky" ++ newline
            ++ "  Temperature : Moderate (59F / 15C)"))
        ["https://api.openweathermap.org/data/2.5/weather?lat=37.774900&lon=-122.419400&units=metric&appid=ABCDEF0123456789ABCDEF0123456789"]
        [].
Proof. split; vm_compute; reflexivity. Qed.

(** C3, on the code: when the request to the provider fails, the client is
    sent the text of the error, which names the URL of the request and in
    it the key. *)
Theorem weatherHandler_leaks_error :
  let w := mkWorld (environment fakeApiKey "" "")
                   (coordinates "37.7749" "-122.4194")
                   unreachable in
  let body :=
    "Get " ++ bytes [34]%N
    ++ "https://api.openweathermap.org/data/2.5/weather?lat=37.774900&lon=-122.419400&units=metric&appid=abcdef0123456789abcdef0123456789"
    ++ bytes [34]%N
    ++ ": dial tcp: lookup api.openweathermap.org: no such host" ++ newline in
  outcome (weatherHandler w) = Response StatusInternalServerError body /\
  strings.Contains body fakeApiKey = true /\
  strings.Contains body "dial tcp: lookup api.openweathermap.org" = true.
Proof. repeat split; vm_compute; reflexivity. Qed.

(** ** The text of the answer *)

Lemma allb_append (p : ascii -> bool) (s t : string) :
  allb p (s ++ t) = allb p s && allb p t.
Proof.
  induction s as [|c s IH]; simpl; [reflexivity|].
  now rewrite IH, andb_assoc.
Qed.

Lemma doPrintf_noPercent (fuel : nat) (s : string) :
  (String.length s <= fuel)%nat -> noPercent s = true ->
  fmt.doPrintf fuel s = s.
Proof.
  revert s. induction fuel as [|fuel IH]; intros [|c s] L P; simpl in *;
    try reflexivity; try lia.
  apply andb_prop in P. destruct P as [Pc Ps].
  destruct (Ascii.eqb c "%"); [discriminate|].
  rewrite IH; [reflexivity|lia|exact Ps].
Qed.

(** A format without a percent sign is printed as it is. *)
Lemma Fprintf_noPercent (s : string) :
  noPercent s = true -> fmt.Fprintf s = s.
Proof. intro P. apply doPrintf_noPercent; [apply le_n|exact P]. Qed.

Lemma noPercent_uint (d : Decimal.uint) :
  noPercent (NilEmpty.string_of_uint d) = true.
Proof. induction d; simpl; auto. Qed.

Lemma noPercent_decimal (n : Z) : noPercent (decimal n) = true.
Proof.
  unfold decimal, NilZero.string_of_uint.
  destruct (N.to_uint (Z.to_N n)) eqn:E; try reflexivity;
    rewrite <- E; apply noPercent_uint.
Qed.

Lemma noPercent_zeros (n : nat) : noPercent (strconv.zeros n) = true.
Proof. induction n as [|n IH]; simpl; auto. Qed.

Lemma noPercent_fixed (n : Z) (prec : nat) :
  noPercent (strconv.fixed n prec) = true.
Proof.
  unfold strconv.fixed, noPercent. rewrite allb_append.
  fold (noPercent (decimal (n / 10 ^ Z.of_nat prec))).
  rewrite noPercent_decimal. destruct prec as [|prec]; [reflexivity|].
  rewrite !allb_append.
  fold (noPercent (strconv.zeros
                     (S prec - String.length
                                 (decimal (n mod 10 ^ Z.of_nat (S prec)))))).
  fold (noPercent (decimal (n mod 10 ^ Z.of_nat (S prec)))).
  now rewrite noPercent_zeros, noPercent_decimal.
Qed.

Lemma noPercent_verb_f (prec : nat) (f : float) :
  noPercent (fmt.verb_f prec f) = true.
Proof.
  unfold fmt.verb_f, strconv.FormatFloat.
  destruct (Prim2SF f) as [s|s| |s m e].
  - unfold noPercent. rewrite allb_append.
    fold (noPercent (strconv.fixed 0 prec)). rewrite noPercent_fixed.
    destruct s; reflexivity.
  - destruct s; reflexivity.
  - reflexivity.
  - destruct (strconv.scaled _ _ _) as [a b].
    unfold noPercent. rewrite allb_append.
    fold (noPercent (strconv.fixed (strconv.nearestEven a b) prec)).
    rewrite noPercent_fixed. destruct s; reflexivity.
Qed.

Lemma noPercent_getTemperature (t : float) :
  noPercent (getTemperature t) = true.
Proof.
  rewrite getTemperature_label. unfold noPercent. rewrite !allb_append.
  fold (noPercent (fmt.verb_f 0 (celsiusToFahrenheit t))).
  fold (noPercent (fmt.verb_f 0 t)). rewrite !noPercent_verb_f.
  unfold label. destruct (24 <? t)%float; [reflexivity|].
  destruct (t <? 10)%float; reflexivity.
Qed.

(** When the condition has no percent sign, the answer is the three lines
    of the specification. *)
Lemma weatherHandler_body_noPercent (w : World) (url c : string) (t : float) :
  observe w = inr (url, c, t) -> noPercent c = true ->
  outcome (weatherHandler w)
  = Response StatusOK (httpResponse c (getTemperature t)).
Proof.
  intros O P. rewrite weatherHandler_observe, O. cbn [outcome].
  rewrite Fprintf_noPercent; [reflexivity|].
  unfold httpResponse, noPercent. rewrite !allb_append.
  fold (noPercent c). fold (noPercent (getTemperature t)).
  now rewrite P, noPercent_getTemperature.
Qed.

(** C4, on the code: the text of the answer is used as a format, so a
    percent sign in the condition is read as a verb: for the condition
    "100% humidity" the body is not the three lines of the specification. *)
Theorem weatherHandler_percent_in_condition :
  let w := mkWorld (environment fakeApiKey "" "")
                   (coordinates "37.7749" "-122.4194")
                   (answers (Document ["100% humidity"] (Some fifteen))) in
  outcome (weatherHandler w) =
  Response StatusOK
    ("Current Temperature:" ++ newline
     ++ "  Weather     : 100%!h(MISSING)umidity" ++ newline
     ++ "  Temperature : Moderate (59F / 15C)") /\
  outcome (weatherHandler w) <>
  Response StatusOK
    ("Current Temperature:" ++ newline
     ++ "  Weather     : 100% humidity" ++ newline
     ++ "  Temperature : Moderate (59F / 15C)").
Proof. split; vm_compute; [reflexivity|discriminate]. Qed.

(** ** NaN *)

(** The classifier's text starts with one label only. *)
Lemma getTemperature_prefix (t : float) :
  let text := getTemperature t in
  (String.prefix "Hot" text = true /\ String.prefix "Cold" text = false /\
   String.prefix "Moderate" text = false) \/
  (String.prefix "Hot" text = false /\ String.prefix "Cold" text = true /\
   String.prefix "Moderate" text = false) \/
  (String.prefix "Hot" text = false /\ String.prefix "Cold" text = false /\
   String.prefix "Moderate" text = true).
Proof.
  cbv zeta. rewrite getTemperature_label.
  generalize (fmt.verb_f 0 (celsiusToFahrenheit t) ++ "F / "
              ++ fmt.verb_f 0 t ++ "C)").
  intro rest. unfold label.
  destruct (24 <? t)%float; [left; repeat split; reflexivity|].
  destruct (t <? 10)%float; right; [left|right]; repeat split; reflexivity.
Qed.

(** C10, as the code has it: the classifier returns for every float a text
    that starts with exactly one of the three labels, and "Moderate" for a
    NaN; the validators accept the text "NaN", which then goes into the URL
    of the request to the provider; the classifier itself only gets the
    temperature decoded from the provider's answer, which is never a NaN. *)
Theorem classifier_and_NaN :
  (forall t,
     let text := getTemperature t in
     (String.prefix "Hot" text = true /\ String.prefix "Cold" text = false /\
      String.prefix "Moderate" text = false) \/
     (String.prefix "Hot" text = false /\ String.prefix "Cold" text = true /\
      String.prefix "Moderate" text = false) \/
     (String.prefix "Hot" text = false /\ String.prefix "Cold" text = false /\
      String.prefix "Moderate" text = true)) /\
  getTemperature nan = "Moderate (NaNF / NaNC)" /\
  validateLatitude "NaN" = (nan, None) /\
  validateLongitude "NaN" = (nan, None) /\
  weatherHandler
    (mkWorld (environment fakeApiKey "" "") (coordinates "NaN" "NaN")
             (answers (Document ["clear sky"] (Some fifteen))))
  = mkRun (Response StatusOK
             ("Current Temperature:" ++ newline
              ++ "  Weather     : clear sky" ++ newline
              ++ "  Temperature : Moderate (59F / 15C)"))
          ["https://api.openweathermap.org/data/2.5/weather?lat=NaN&lon=NaN&units=metric&appid=abcdef0123456789abcdef0123456789"]
          [] /\
  (forall w url weatherCondition temperature,
     observe w = inr (url, weatherCondition, temperature) ->
     is_nan temperature = false /\
     weatherHandler w =
     mkRun (Response StatusOK
              (fmt.Fprintf
                 (httpResponse weatherCondition (getTemperature temperature))))
           [url] []).
Proof.
  split; [exact getTemperature_prefix|].
  repeat (split; [vm_compute; reflexivity|]).
  intros w url c t O. split; [exact (observe_not_nan w url c t O)|].
  now rewrite weatherHandler_observe, O.
Qed.

(** The theorem on a request whose coordinates are both "NaN". *)
Lemma classifier_and_NaN_witness :
  observe (mkWorld (environment fakeApiKey "" "") (coordinates "NaN" "NaN")
                   (answers (Document ["clear sky"] (Some fifteen))))
  = inr ("https://api.openweathermap.org/data/2.5/weather?lat=NaN&lon=NaN&units=metric&appid=abcdef0123456789abcdef0123456789",
         "clear sky", 15%float) /\
  is_nan 15 = false.
Proof.
  match goal with
  | |- ?A /\ _ => assert A as O by (vm_compute; reflexivity)
  end.
  split; [exact O|].
  destruct classifier_and_NaN as (_ & _ & _ & _ & _ & H).
  exact (proj1 (H _ _ _ _ O)).
Defined.

(** C10 as stated fails in its last part: no request brings a NaN to the
    classifier. *)
Lemma NaN_never_classified :
  ~ (exists w url weatherCondition temperature,
        observe w = inr (url, weatherCondition, temperature) /\
        is_nan temperature = true).
Proof.
  intros (w & url & c & t & O & N).
  rewrite (observe_not_nan w url c t O) in N. discriminate.
Qed.

(** * More of the program *)

(** ** What the handler answers, requests and logs *)

(** Whatever the check of the pattern says, the key [getAPIKey] returns is
    the trimmed value of the variable. *)
Lemma getAPIKey_key (getenv : string -> string) :
  fst (getAPIKey getenv) = strings.TrimSpace (getenv "OPENWEATHER_API_KEY").
Proof.
  unfold getAPIKey. destruct (String.eqb _ ""); [reflexivity|].
  destruct (negb _); reflexivity.
Qed.

(** X1: the handler answers 500 "invalid API key", with no request to the
    provider and nothing logged, exactly when nothing is left of
    OPENWEATHER_API_KEY after trimming. *)
Theorem weatherHandler_blank_key_iff (w : World) :
  weatherHandler w
  = mkRun (http_Error "invalid API key" StatusInternalServerError) [] []
  <-> strings.TrimSpace (Getenv w "OPENWEATHER_API_KEY") = "".
Proof.
  split; [|apply weatherHandler_unset_key].
  unfold weatherHandler, getAPIKey.
  set (key := strings.TrimSpace (Getenv w "OPENWEATHER_API_KEY")).
  destruct (String.eqb key "") eqn:K.
  - intros _. now apply String.eqb_eq.
  - destruct (negb _); cbv iota; rewrite K;
    (destruct (validateLatitude (Query w "lat")) as [latitude [e1|]];
      [discriminate|];
     destruct (validateLongitude (Query w "lon")) as [longitude [e2|]];
      [discriminate|];
     destruct (Get w (requestURL latitude longitude key)) as [e3|body];
      [discriminate|];
     destruct (Decode body) as [weatherData|e4]; [|discriminate];
     destruct (Weather weatherData); discriminate).
Qed.

(** The theorem on a key of three spaces. *)
Lemma weatherHandler_blank_key_iff_witness :
  weatherHandler (mkWorld (environment "   " "" "") (coordinates "45" "90")
                          unreachable)
  = mkRun (http_Error "invalid API key" StatusInternalServerError) [] [].
Proof.
  refine (proj2 (weatherHandler_blank_key_iff
                   (mkWorld (environment "   " "" "") (coordinates "45" "90")
                            unreachable)) _).
  vm_compute. reflexivity.
Defined.

(** X2: with a key, a latitude that is not a number, or a number out of
    the range, is answered 400 "Invalid latitude" before the longitude is
    looked at and without a request to the provider; the text of the query,
    or the number with six decimals, goes to the log only. *)
Theorem weatherHandler_bad_latitude (w : World) :
  strings.TrimSpace (Getenv w "OPENWEATHER_API_KEY") <> "" ->
  (strconv.ParseFloat (Query w "lat") = None ->
   weatherHandler w =
   mkRun (http_Error "Invalid latitude" StatusBadRequest) []
         ["input error: invalid latitude format: " ++ Query w "lat"]) /\
  (forall lat,
     strconv.ParseFloat (Query w "lat") = Some lat -> is_nan lat = false ->
     ((-90 <=? lat) && (lat <=? 90))%float = false ->
     weatherHandler w =
     mkRun (http_Error "Invalid latitude" StatusBadRequest) []
           ["input error: latitude out of range (-90 to 90 degrees): "
            ++ fmt.verb_f 6 lat]).
Proof.
  intro K. unfold weatherHandler.
  pose proof (getAPIKey_key (Getenv w)) as F.
  destruct (getAPIKey (Getenv w)) as [apiKey e]. cbn [fst] in F. subst apiKey.
  apply String.eqb_neq in K. rewrite K.
  split.
  - intro P. now rewrite (validateLatitude_unparsable _ P).
  - intros lat P N R. now rewrite (validateLatitude_number _ _ P N), R.
Qed.

(** The theorem on the latitudes "north" and "90.5". *)
Lemma weatherHandler_bad_latitude_witness :
  weatherHandler
    (mkWorld (environment fakeApiKey "" "") (coordinates "north" "east")
             unreachable)
  = mkRun (http_Error "Invalid latitude" StatusBadRequest) []
          ["input error: invalid latitude format: north"] /\
  weatherHandler
    (mkWorld (environment fakeApiKey "" "") (coordinates "90.5" "east")
             unreachable)
  = mkRun (http_Error "Invalid latitude" StatusBadRequest) []
          ["input error: latitude out of range (-90 to 90 degrees): 90.500000"].
Proof.
  split.
  - refine (proj1 (weatherHandler_bad_latitude
                     (mkWorld (environment fakeApiKey "" "")
                              (coordinates "north" "east") unreachable) _) _);
      [vm_compute; discriminate|reflexivity].
  - refine (proj2 (weatherHandler_bad_latitude
                     (mkWorld (environment fakeApiKey "" "")
                              (coordinates "90.5" "east") unreachable) _)
                  90.5%float _ _ _);
      [vm_compute; discriminate|reflexivity..].
Defined.

(** X3: with a key and a latitude that is accepted, a longitude that is
    not a number, or a number out of the range, is answered 400 "Invalid
    longitude" without a request to the provider, and logged in the same
    way. *)
Theorem weatherHandler_bad_longitude (w : World) (latitude : float) :
  strings.TrimSpace (Getenv w "OPENWEATHER_API_KEY") <> "" ->
  validateLatitude (Query w "lat") = (latitude, None) ->
  (strconv.ParseFloat (Query w "lon") = None ->
   weatherHandler w =
   mkRun (http_Error "Invalid longitude" StatusBadRequest) []
         ["input error: invalid longitude format: " ++ Query w "lon"]) /\
  (forall lon,
     strconv.ParseFloat (Query w "lon") = Some lon -> is_nan lon = false ->
     ((-180 <=? lon) && (lon <=? 180))%float = false ->
     weatherHandler w =
     mkRun (http_Error "Invalid longitude" StatusBadRequest) []
           ["input error: longitude out of range (-180 to 180 degrees): "
            ++ fmt.verb_f 6 lon]).
Proof.
  intros K La. unfold weatherHandler.
  pose proof (getAPIKey_key (Getenv w)) as F.
  destruct (getAPIKey (Getenv w)) as [apiKey e]. cbn [fst] in F. subst apiKey.
  apply String.eqb_neq in K. rewrite K, La.
  split.
  - intro P. now rewrite (validateLongitude_unparsable _ P).
  - intros lon P N R. now rewrite (validateLongitude_number _ _ P N), R.
Qed.

(** The theorem on the longitudes "east" and "-180.5". *)
Lemma weatherHandler_bad_longitude_witness :
  weatherHandler
    (mkWorld (environment fakeApiKey "" "") (coordinates "45" "east")
             unreachable)
  = mkRun (http_Error "Invalid longitude" StatusBadRequest) []
          ["input error: invalid longitude format: east"] /\
  weatherHandler
    (mkWorld (environment fakeApiKey "" "") (coordinates "45" "-180.5")
             unreachable)
  = mkRun (http_Error "Invalid longitude" StatusBadRequest) []
          ["input error: longitude out of range (-180 to 180 degrees): -180.500000"].
Proof.
  split.
  - refine (proj1 (weatherHandler_bad_longitude
                     (mkWorld (environment fakeApiKey "" "")
                              (coordinates "45" "east") unreachable)
                     45%float _ _) _);
      [vm_compute; discriminate|reflexivity..].
  - refine (proj2 (weatherHandler_bad_longitude
                     (mkWorld (environment fakeApiKey "" "")
                              (coordinates "45" "-180.5") unreachable)
                     45%float _ _)
                  (-180.5)%float _ _ _);
      [vm_compute; discriminate|reflexivity..].
Defined.



(** X5: the handler sends no request, or one: to the URL made of the two
    validated coordinates and the trimmed key, and only when the key is not
    empty and both coordinates are accepted. *)
Theorem weatherHandler_requests_at_most_once (w : World) :
  requested (weatherHandler w) = [] \/
  exists latitude longitude,
    strings.TrimSpace (Getenv w "OPENWEATHER_API_KEY") <> "" /\
    validateLatitude (Query w "lat") = (latitude, None) /\
    validateLongitude (Query w "lon") = (longitude, None) /\
    requested (weatherHandler w)
    = [requestURL latitude longitude
                  (strings.TrimSpace (Getenv w "OPENWEATHER_API_KEY"))].
Proof.
  unfold weatherHandler.
  pose proof (getAPIKey_key (Getenv w)) as F.
  set (key := strings.TrimSpace (Getenv w "OPENWEATHER_API_KEY")) in *.
  destruct (getAPIKey (Getenv w)) as [apiKey e]. cbn [fst] in F. subst apiKey.
  destruct (String.eqb key "") eqn:K; [now left|].
  apply String.eqb_neq in K.
  destruct (validateLatitude (Query w "lat")) as [latitude [e1|]];
    [now left|].
  destruct (validateLongitude (Query w "lon")) as [longitude [e2|]];
    [now left|].
  right. exists latitude, longitude. repeat split; try assumption.
  cbv zeta.
  destruct (Get w (requestURL latitude longitude key)) as [e3|body];
    [reflexivity|].
  destruct (Decode body) as [weatherData|e4]; [|reflexivity].
  destruct (Weather weatherData); reflexivity.
Qed.



(** X7: an answer of the provider without a temperature is shown as 0
    degrees: "Cold (32F / 0C)". *)
Theorem weatherHandler_missing_temperature (w : World) (key : string)
        (err : option string) (latitude longitude : float) (d : string)
        (ds : list string) :
  getAPIKey (Getenv w) = (key, err) -> key <> "" ->
  validateLatitude (Query w "lat") = (latitude, None) ->
  validateLongitude (Query w "lon") = (longitude, None) ->
  Get w (requestURL latitude longitude key)
  = GetResponse (Document (d :: ds) None) ->
  noPercent d = true ->
  outcome (weatherHandler w)
  = Response StatusOK
      ("Current Temperature:" ++ newline
       ++ "  Weather     : " ++ d ++ newline
       ++ "  Temperature : Cold (32F / 0C)").
Proof.
  intros K Hne La Lo G P.
  rewrite (weatherHandler_good_request w key err latitude longitude K Hne La Lo).
  cbv zeta. rewrite G. cbn [Decode Weather map outcome Description Main Temperature].
  replace (getTemperature 0) with "Cold (32F / 0C)" by (vm_compute; reflexivity).
  rewrite Fprintf_noPercent; [reflexivity|].
  unfold httpResponse, noPercent. rewrite !allb_append.
  fold (noPercent d). now rewrite P.
Qed.

(** The theorem on an answer that has a condition only. *)
Lemma weatherHandler_missing_temperature_witness :
  outcome
    (weatherHandler
       (mkWorld (environment fakeApiKey "" "")
                (coordinates "37.7749" "-122.4194")
                (answers (Document ["clear sky"] None))))
  = Response StatusOK
      ("Current Temperature:" ++ newline
       ++ "  Weather     : clear sky" ++ newline
       ++ "  Temperature : Cold (32F / 0C)").
Proof.
  refine (weatherHandler_missing_temperature
            (mkWorld (environment fakeApiKey "" "")
                     (coordinates "37.7749" "-122.4194")
                     (answers (Document ["clear sky"] None)))
            fakeApiKey None 37.7749%float (-122.4194)%float
            "clear sky" [] _ _ _ _ _ _);
    try (vm_compute; reflexivity).
  discriminate.
Defined.



(** X9: the handler panics only after one request that the provider
    answered with a document listing no condition, and then with the index
    error of [Weather[0]]. *)
Theorem weatherHandler_panics_only_on_empty_list (w : World) (msg : string) :
  outcome (weatherHandler w) = Panic msg ->
  exists url temp,
    requested (weatherHandler w) = [url] /\
    Get w url = GetResponse (Document [] temp) /\
    msg = "runtime error: index out of range [0] with length 0".
Proof.
  unfold weatherHandler.
  destruct (getAPIKey (Getenv w)) as [apiKey e].
  destruct (String.eqb apiKey ""); [discriminate|].
  destruct (validateLatitude (Query w "lat")) as [latitude [e1|]];
    [discriminate|].
  destruct (validateLongitude (Query w "lon")) as [longitude [e2|]];
    [discriminate|].
  destruct (Get w (requestURL latitude longitude apiKey)) as [e3|body] eqn:G;
    [discriminate|].
  destruct body as [err|ds temp]; [discriminate|].
  cbn [Decode Weather]. destruct ds as [|d ds]; [|discriminate].
  cbn [map outcome requested]. intro H. injection H as <-.
  exists (requestURL latitude longitude apiKey), temp. auto.
Qed.

(** The theorem on an answer with an empty list. *)
Lemma weatherHandler_panics_only_on_empty_list_witness :
  exists url temp,
    requested (weatherHandler
                 (mkWorld (environment fakeApiKey "" "")
                          (coordinates "45" "90")
                          (answers (Document [] (Some fifteen))))) = [url] /\
    answers (Document [] (Some fifteen)) url = GetResponse (Document [] temp) /\
    "runtime error: index out of range [0] with length 0"
    = "runtime error: index out of range [0] with length 0".
Proof.
  refine (weatherHandler_panics_only_on_empty_list
            (mkWorld (environment fakeApiKey "" "") (coordinates "45" "90")
                     (answers (Document [] (Some fifteen))))
            _ _).
  vm_compute. reflexivity.
Defined.

(** ** The validators *)

Lemma Prim2SF_90 : Prim2SF 90 = S754_finite false 6333186975989760 (-46).
Proof. vm_compute. reflexivity. Qed.

Lemma Prim2SF_180 : Prim2SF 180 = S754_finite false 6333186975989760 (-45).
Proof. vm_compute. reflexivity. Qed.

Lemma Prim2SF_m90 : Prim2SF (-90) = S754_finite true 6333186975989760 (-46).
Proof. vm_compute. reflexivity. Qed.

Lemma Prim2SF_m180 : Prim2SF (-180) = S754_finite true 6333186975989760 (-45).
Proof. vm_compute. reflexivity. Qed.

Lemma above_180_above_90 (x : float) :
  (180 <? x)%float = true -> (90 <? x)%float = true.
Proof.
  rewrite (ltb_spec 180), (ltb_spec 90), Prim2SF_90, Prim2SF_180.
  unfold SFltb.
  destruct (Prim2SF x) as [s|s| |s m e]; cbn [SFcompare]; try congruence.
  destruct s; [congruence|].
  destruct (Z.compare_spec (-45) e), (Z.compare_spec (-46) e);
    try congruence; try lia.
Qed.

Lemma below_m180_below_m90 (x : float) :
  (x <? -180)%float = true -> (x <? -90)%float = true.
Proof.
  rewrite (ltb_spec x (-180)), (ltb_spec x (-90)), Prim2SF_m90, Prim2SF_m180.
  unfold SFltb.
  destruct (Prim2SF x) as [s|s| |s m e]; cbn [SFcompare]; try congruence.
  destruct s; [|congruence].
  destruct (Z.compare_spec e (-45)), (Z.compare_spec e (-46));
    try congruence; try lia.
Qed.

(** X10: [validateLatitude] accepts a text, and returns its number, exactly
    when [ParseFloat] reads the text and the number is a NaN or lies from
    -90 to 90, the bounds included. *)
Theorem validateLatitude_accepts_iff (raw : string) (lat : float) :
  validateLatitude raw = (lat, None) <->
  strconv.ParseFloat raw = Some lat /\
  (is_nan lat = true \/ ((-90 <=? lat) && (lat <=? 90))%float = true).
Proof.
  split.
  - unfold validateLatitude.
    destruct (strconv.ParseFloat raw) as [x|]; [|discriminate].
    destruct ((x <? -90)%float || (90 <? x)%float) eqn:R; [discriminate|].
    intro E. injection E as <-. split; [reflexivity|].
    destruct (is_nan x) eqn:N; [now left|right].
    rewrite (ltb_negb_leb x (-90) N eq_refl),
            (ltb_negb_leb 90 x eq_refl N) in R.
    destruct (-90 <=? x)%float, (x <=? 90)%float; simpl in *; congruence.
  - intros [P [N|R]].
    + exact (validateLatitude_nan raw lat P N).
    + assert (is_nan lat = false) as N.
      { destruct (is_nan lat) eqn:N; [|reflexivity].
        rewrite (leb_nan_r (-90) lat N) in R. discriminate. }
      now rewrite (validateLatitude_number raw lat P N), R.
Qed.

(** The theorem from right to left on "45.5", from left to right on
    "NaN". *)
Lemma validateLatitude_accepts_iff_witness :
  validateLatitude "45.5" = (45.5%float, None) /\
  (strconv.ParseFloat "NaN" = Some nan /\
   (is_nan nan = true \/ ((-90 <=? nan) && (nan <=? 90))%float = true)).
Proof.
  split.
  - refine (proj2 (validateLatitude_accepts_iff "45.5" 45.5) (conj _ _)).
    + vm_compute. reflexivity.
    + right. vm_compute. reflexivity.
  - refine (proj1 (validateLatitude_accepts_iff "NaN" nan) _).
    vm_compute. reflexivity.
Defined.

(** X11: [validateLongitude] accepts a text, and returns its number,
    exactly when [ParseFloat] reads the text and the number is a NaN or lies
    from -180 to 180, the bounds included. *)
Theorem validateLongitude_accepts_iff (raw : string) (lon : float) :
  validateLongitude raw = (lon, None) <->
  strconv.ParseFloat raw = Some lon /\
  (is_nan lon = true \/ ((-180 <=? lon) && (lon <=? 180))%float = true).
Proof.
  split.
  - unfold validateLongitude.
    destruct (strconv.ParseFloat raw) as [x|]; [|discriminate].
    destruct ((x <? -180)%float || (180 <? x)%float) eqn:R; [discriminate|].
    intro E. injection E as <-. split; [reflexivity|].
    destruct (is_nan x) eqn:N; [now left|right].
    rewrite (ltb_negb_leb x (-180) N eq_refl),
            (ltb_negb_leb 180 x eq_refl N) in R.
    destruct (-180 <=? x)%float, (x <=? 180)%float; simpl in *; congruence.
  - intros [P [N|R]].
    + exact (validateLongitude_nan raw lon P N).
    + assert (is_nan lon = false) as N.
      { destruct (is_nan lon) eqn:N; [|reflexivity].
        rewrite (leb_nan_r (-180) lon N) in R. discriminate. }
      now rewrite (validateLongitude_number raw lon P N), R.
Qed.

(** The theorem from right to left on "-122.4194", from left to right on
    "180". *)
Lemma validateLongitude_accepts_iff_witness :
  validateLongitude "-122.4194" = ((-122.4194)%float, None) /\
  (strconv.ParseFloat "180" = Some 180%float /\
   (is_nan 180 = true \/ ((-180 <=? 180) && (180 <=? 180))%float = true)).
Proof.
  split.
  - refine (proj2 (validateLongitude_accepts_iff "-122.4194" (-122.4194))
                  (conj _ _)).
    + vm_compute. reflexivity.
    + right. vm_compute. reflexivity.
  - refine (proj1 (validateLongitude_accepts_iff "180" 180) _).
    vm_compute. reflexivity.
Defined.

(** X12: a text [validateLatitude] accepts is accepted by
    [validateLongitude], with the same number. *)
Theorem latitude_is_a_longitude (raw : string) (x : float) :
  validateLatitude raw = (x, None) -> validateLongitude raw = (x, None).
Proof.
  unfold validateLatitude, validateLongitude.
  destruct (strconv.ParseFloat raw) as [v|]; [|discriminate].
  destruct (v <? -90)%float eqn:A; [discriminate|].
  destruct (90 <? v)%float eqn:B; [discriminate|].
  cbn [orb]. intro E. injection E as <-.
  destruct (v <? -180)%float eqn:C;
    [rewrite (below_m180_below_m90 v C) in A; discriminate|].
  destruct (180 <? v)%float eqn:D;
    [rewrite (above_180_above_90 v D) in B; discriminate|].
  reflexivity.
Qed.

(** The theorem on "-90". *)
Lemma latitude_is_a_longitude_witness :
  validateLongitude "-90" = ((-90)%float, None).
Proof.
  refine (latitude_is_a_longitude "-90" (-90) _). vm_compute. reflexivity.
Defined.

(** ** The label and the Celsius value shown after it *)










(** ** White space around the values of the environment *)

Lemma rev_string_app (a b acc : string) :
  rev_string (a ++ b) acc = rev_string b (rev_string a acc).
Proof. revert acc. induction a as [|c a IH]; intro acc; simpl; auto. Qed.

Lemma rev_string_acc (s acc : string) :
  rev_string s acc = rev_string s "" ++ acc.
Proof.
  revert acc. induction s as [|c s IH]; intro acc; simpl; [reflexivity|].
  rewrite IH, (IH (String c "")), append_assoc. reflexivity.
Qed.

Lemma rev_string_involutive (s : string) :
  rev_string (rev_string s "") "" = s.
Proof.
  induction s as [|c s IH]; simpl; [reflexivity|].
  rewrite (rev_string_acc s), rev_string_app, IH. reflexivity.
Qed.

Lemma allb_rev_string (p : ascii -> bool) (s acc : string) :
  allb p (rev_string s acc) = allb p s && allb p acc.
Proof.
  revert acc. induction s as [|c s IH]; intro acc; simpl; [reflexivity|].
  rewrite IH. simpl. now rewrite andb_assoc, (andb_comm (allb p s) (p c)).
Qed.

Lemma length_rev_string (s acc : string) :
  String.length (rev_string s acc) = (String.length s + String.length acc)%nat.
Proof.
  revert acc. induction s as [|c s IH]; intro acc; simpl; [reflexivity|].
  rewrite IH. simpl. lia.
Qed.

Lemma trims_spaces : trims strings.spaces.
Proof.
  repeat split.
  - intros c r H.
    destruct c as [[|] [|] [|] [|] [|] [|] [|] [|]]; vm_compute in H;
      try discriminate H; reflexivity.
  - intros c r H.
    destruct c as [[|] [|] [|] [|] [|] [|] [|] [|]]; vm_compute in H;
      try discriminate H; reflexivity.
Qed.

Lemma trims_reversed :
  trims (map (fun p => rev_string p "") strings.spaces).
Proof.
  repeat split.
  - intros c r H.
    destruct c as [[|] [|] [|] [|] [|] [|] [|] [|]]; vm_compute in H;
      try discriminate H; reflexivity.
  - intros c r H.
    destruct c as [[|] [|] [|] [|] [|] [|] [|] [|]]; vm_compute in H;
      try discriminate H; reflexivity.
Qed.

Lemma trimLeft_pad (ps : list string) (l rest : string) (fuel : nat) :
  trims ps -> allb isAsciiSpace l = true ->
  strings.trimLeft (String.length l + fuel) ps (l ++ rest)
  = strings.trimLeft fuel ps rest.
Proof.
  intros [T _]. induction l as [|c l IH]; intro H; [reflexivity|].
  cbn [allb] in H. apply andb_prop in H. destruct H as [Hc Hl].
  cbn [String.length Nat.add append strings.trimLeft].
  rewrite (T c _ Hc). exact (IH Hl).
Qed.

Lemma trimLeft_stop (ps : list string) (k : string) (fuel : nat) :
  trims ps -> allb isPlain k = true -> strings.trimLeft fuel ps k = k.
Proof.
  intros (_ & T & E) H. destruct fuel as [|fuel]; [reflexivity|].
  cbn [strings.trimLeft]. destruct k as [|c k]; [now rewrite E|].
  cbn [allb] in H. apply andb_prop in H. destruct H as [Hc _].
  now rewrite (T c k Hc).
Qed.

Lemma trimLeft_pad_stop (ps : list string) (l k : string) (fuel : nat) :
  trims ps -> allb isAsciiSpace l = true -> allb isPlain k = true ->
  (String.length l <= fuel)%nat ->
  strings.trimLeft fuel ps (l ++ k) = k.
Proof.
  intros T Hl Hk L.
  replace fuel with (String.length l + (fuel - String.length l))%nat by lia.
  rewrite (trimLeft_pad ps l k _ T Hl). exact (trimLeft_stop ps k _ T Hk).
Qed.

Lemma allb_plain_or_space_stop (ps : list string) (k r : string) (fuel : nat) :
  trims ps -> allb isPlain k = true -> k <> "" ->
  strings.trimLeft fuel ps (k ++ r) = k ++ r.
Proof.
  intros (_ & T & _) H Hne. destruct fuel as [|fuel]; [reflexivity|].
  destruct k as [|c k]; [contradiction|].
  cbn [allb] in H. apply andb_prop in H. destruct H as [Hc _].
  cbn [append strings.trimLeft]. now rewrite (T c _ Hc).
Qed.

(** [TrimSpace] leaves nothing of a text of white space. *)
Lemma TrimSpace_blank (s : string) :
  allb isAsciiSpace s = true -> strings.TrimSpace s = "".
Proof.
  intro H. unfold strings.TrimSpace.
  assert (strings.TrimLeftSpace s = "") as ->; [|reflexivity].
  unfold strings.TrimLeftSpace.
  pose proof (trimLeft_pad _ s "" 0 trims_spaces H) as E.
  rewrite append_nil_r, Nat.add_0_r in E. exact E.
Qed.

(** [TrimSpace] removes the ASCII white space around a text of other ASCII
    characters. *)
Lemma TrimSpace_padded (l k r : string) :
  allb isAsciiSpace l = true -> allb isAsciiSpace r = true ->
  allb isPlain k = true ->
  strings.TrimSpace (l ++ k ++ r) = k.
Proof.
  intros Hl Hr Hk. destruct k as [|c k].
  { apply TrimSpace_blank. cbn [append]. now rewrite allb_append, Hl, Hr. }
  unfold strings.TrimSpace.
  assert (strings.TrimLeftSpace (l ++ String c k ++ r) = String c k ++ r) as ->.
  { unfold strings.TrimLeftSpace.
    replace (String.length (l ++ String c k ++ r))
      with (String.length l + String.length (String c k ++ r))%nat
      by (symmetry; apply length_append).
    rewrite (trimLeft_pad _ l _ _ trims_spaces Hl).
    apply (allb_plain_or_space_stop _ (String c k) r _ trims_spaces Hk).
    discriminate. }
  unfold strings.TrimRightSpace.
  rewrite rev_string_app.
  rewrite (rev_string_acc r (rev_string (String c k) "")).
  rewrite (trimLeft_pad_stop _ (rev_string r "") (rev_string (String c k) "") _
                             trims_reversed).
  - apply rev_string_involutive.
  - now rewrite allb_rev_string, Hr.
  - now rewrite allb_rev_string, Hk.
  - rewrite length_rev_string, length_append. simpl. lia.
Qed.

(** The 256 cases of a character. *)
Ltac each_char c := destruct c as [[|] [|] [|] [|] [|] [|] [|] [|]].

Lemma isDigit_ipChar (c : ascii) : isDigit c = true -> ipChar c = true.
Proof. each_char c; intro H; vm_compute in H; try discriminate H; reflexivity. Qed.

Lemma ipChar_noSpace (c : ascii) :
  ipChar c = true -> negb (isAsciiSpace c) = true.
Proof. each_char c; intro H; vm_compute in H; try discriminate H; reflexivity. Qed.

Lemma isDigit_noSpace (c : ascii) :
  isDigit c = true -> negb (isAsciiSpace c) = true.
Proof. intro H. apply ipChar_noSpace, isDigit_ipChar, H. Qed.

Lemma lowerHex_isPlain (c : ascii) : lowerHex c = true -> isPlain c = true.
Proof. each_char c; intro H; vm_compute in H; try discriminate H; reflexivity. Qed.

Lemma allb_impl (p q : ascii -> bool) (s : string) :
  (forall c, p c = true -> q c = true) -> allb p s = true -> allb q s = true.
Proof.
  intro I. induction s as [|c s IH]; simpl; [reflexivity|].
  intro H. apply andb_prop in H. destruct H as [Hc Hs].
  now rewrite (I c Hc), (IH Hs).
Qed.

Lemma ipv4Fields_chars (s : string) (first prevDot : bool) (val pos digLen : Z) :
  net.ipv4Fields s first prevDot val pos digLen = true ->
  allb ipChar s = true.
Proof.
  revert first prevDot val pos digLen.
  induction s as [|c s IH]; intros first prevDot val pos digLen;
    [reflexivity|].
  cbn [net.ipv4Fields allb].
  destruct (isDigit c) eqn:D.
  - rewrite (isDigit_ipChar c D).
    destruct ((digLen =? 1)%Z && (val =? 0)%Z); [discriminate|].
    destruct (255 <? val * 10 + digitVal c)%Z; [discriminate|]. apply IH.
  - destruct (Ascii.eqb c ".") eqn:E; [|discriminate].
    apply Ascii.eqb_eq in E. subst c.
    destruct (first || prevDot || match s with "" => true | _ => false end);
      [discriminate|].
    destruct (pos =? 3)%Z; [discriminate|]. apply IH.
Qed.

Lemma hexRun_chars (s : string) :
  allb ipChar (drop (net.hexRun s) s) = true -> allb ipChar s = true.
Proof.
  induction s as [|c s IH]; [reflexivity|].
  cbn [net.hexRun]. destruct (net.isHex c) eqn:H.
  - cbn [drop allb]. intro A. unfold ipChar at 1. rewrite H. cbn [orb].
    exact (IH A).
  - cbn [drop]. auto.
Qed.

Lemma ipv6Groups_chars (fuel : nat) (s : string) (i : Z) (ellipsis : bool) :
  net.ipv6Groups fuel s i ellipsis = true -> allb ipChar s = true.
Proof.
  revert s i ellipsis. induction fuel as [|fuel IH]; intros s i ellipsis;
    [discriminate|].
  cbn [net.ipv6Groups].
  destruct (negb (i <? 16)%Z).
  { destruct s; [reflexivity|discriminate]. }
  destruct ((4 <? net.hexRun s)%nat || (net.hexRun s =? 0)%nat);
    [discriminate|].
  pose proof (hexRun_chars s) as Hx.
  destruct (drop (net.hexRun s) s) as [|c r]; [intros _; now apply Hx|].
  each_char c; try discriminate.
  - (* "." *)
    destruct (negb ellipsis && negb (i =? 12)%Z); [discriminate|].
    destruct (16 <? i + 4)%Z; [discriminate|].
    destruct (net.parseIPv4 s) eqn:P; [|discriminate].
    intros _. exact (ipv4Fields_chars _ _ _ _ _ _ P).
  - (* ":" *)
    destruct r as [|c2 r2]; [discriminate|].
    each_char c2;
      try (intro H; apply Hx; cbn [allb]; apply (IH _ _ _) in H;
           cbn [allb] in H; exact H).
    destruct ellipsis; [discriminate|].
    destruct r2 as [|c3 r3]; [intros _; now apply Hx|].
    intro H. apply Hx. apply (IH _ _ _) in H. exact H.
Qed.

Lemma parseIPv6_chars (s : string) :
  net.parseIPv6 s = true -> allb ipChar s = true.
Proof.
  unfold net.parseIPv6. destruct (strings.Contains s "%"); [discriminate|].
  destruct s as [|c1 r1]; [reflexivity|].
  each_char c1; try (apply ipv6Groups_chars).
  destruct r1 as [|c2 r2]; [apply ipv6Groups_chars|].
  each_char c2; try (apply ipv6Groups_chars).
  destruct r2 as [|c3 r3]; [reflexivity|].
  intro H. apply ipv6Groups_chars in H. exact H.
Qed.

Lemma dispatch_chars (whole s : string) :
  net.dispatch whole s = true -> allb ipChar whole = true.
Proof.
  induction s as [|c s IH]; [discriminate|].
  cbn [net.dispatch].
  destruct (Ascii.eqb c "."); [apply ipv4Fields_chars|].
  destruct (Ascii.eqb c ":"); [apply parseIPv6_chars|].
  destruct (Ascii.eqb c "%"); [discriminate|exact IH].
Qed.

(** An IP literal holds no white space. *)
Lemma ParseIP_noSpace (s : string) :
  net.ParseIP s = true -> noSpace s = true.
Proof.
  intro H. apply dispatch_chars in H.
  exact (allb_impl _ _ s ipChar_noSpace H).
Qed.

(** Nor does a text [Atoi] reads. *)
Lemma Atoi_noSpace (s : string) (p : Z) :
  strconv.Atoi s = Some p -> noSpace s = true.
Proof.
  unfold strconv.Atoi.
  assert (forall ds sg, negb (isAsciiSpace sg) = true ->
            (match ds with
             | "" => None
             | _ => if allb isDigit ds then Some 0%Z else None
             end <> None) -> noSpace (String sg ds) = true) as Signed.
  { intros ds sg Hs H. unfold noSpace. cbn [allb]. rewrite Hs.
    destruct ds as [|c d]; [congruence|].
    destruct (allb isDigit (String c d)) eqn:D; [|congruence].
    exact (allb_impl _ _ _ isDigit_noSpace D). }
  destruct s as [|c r]; [discriminate|].
  assert (allb isDigit (String c r) = true -> noSpace (String c r) = true)
    as Plain by (apply allb_impl, isDigit_noSpace).
  each_char c; cbv beta iota zeta;
    try (match goal with
         | |- context [allb isDigit ?x] => destruct (allb isDigit x) eqn:D
         end; [intros _; exact (Plain eq_refl)|discriminate]).
  - (* "+" *)
    intro H. apply Signed; [reflexivity|].
    destruct r; [discriminate|]. destruct (allb isDigit (String a r));
      [discriminate|discriminate H].
  - (* "-" *)
    intro H. apply Signed; [reflexivity|].
    destruct r; [discriminate|]. destruct (allb isDigit (String a r));
      [discriminate|discriminate H].
Qed.

Lemma noSpace_padded (l k r : string) :
  allb isAsciiSpace l = true -> allb isAsciiSpace r = true ->
  l <> "" \/ r <> "" -> noSpace (l ++ k ++ r) = false.
Proof.
  intros Hl Hr [N|N]; unfold noSpace; rewrite !allb_append.
  - destruct l as [|c l]; [contradiction|]. cbn [allb] in *.
    apply andb_prop in Hl. destruct Hl as [-> _]. reflexivity.
  - destruct r as [|c r]; [contradiction|]. cbn [allb] in *.
    apply andb_prop in Hr. destruct Hr as [-> _]. cbn [negb andb].
    now rewrite !andb_false_r.
Qed.

(** X14: ASCII white space before and after a key of 32 lower-case
    hexadecimal digits does not count: [getAPIKey] returns the key without
    it, and no error. *)
Theorem getAPIKey_ignores_padding (getenv : string -> string) (l k r : string) :
  getenv "OPENWEATHER_API_KEY" = l ++ k ++ r ->
  allb isAsciiSpace l = true -> allb isAsciiSpace r = true -> hex32 k ->
  getAPIKey getenv = (k, None).
Proof.
  intros E Hl Hr Hk. unfold getAPIKey. rewrite E.
  rewrite (TrimSpace_padded l k r Hl Hr
             (allb_impl _ _ k lowerHex_isPlain (proj2 Hk))).
  assert (k <> "") as Hne
      by (intros ->; destruct Hk as [L _]; discriminate L).
  apply String.eqb_neq in Hne. rewrite Hne.
  apply apiKeyRegex_matches in Hk. now rewrite Hk.
Qed.

(** The theorem on the key of the repository's tests between a space and a
    tab, and a carriage return and a line feed. *)
Lemma getAPIKey_ignores_padding_witness :
  getAPIKey (environment (bytes [32; 9]%N ++ fakeApiKey ++ bytes [13; 10]%N)
                         "" "")
  = (fakeApiKey, None).
Proof.
  refine (getAPIKey_ignores_padding _ (bytes [32; 9]%N) fakeApiKey
                                    (bytes [13; 10]%N) _ _ _ _);
    try reflexivity.
  split; reflexivity.
Defined.

(** X15: a value of OPENWEATHER_API_KEY that is ASCII white space only
    counts as not set: [getAPIKey] says so, and the handler answers 500
    "invalid API key". *)
Theorem blank_key_is_not_set (w : World) :
  allb isAsciiSpace (Getenv w "OPENWEATHER_API_KEY") = true ->
  getAPIKey (Getenv w) = ("", Some "OPENWEATHER_API_KEY is not set") /\
  weatherHandler w
  = mkRun (http_Error "invalid API key" StatusInternalServerError) [] [].
Proof.
  intro H. apply TrimSpace_blank in H. split.
  - unfold getAPIKey. now rewrite H.
  - exact (weatherHandler_unset_key w H).
Qed.

(** The theorem on a space and a line feed. *)
Lemma blank_key_is_not_set_witness :
  getAPIKey (environment (bytes [32; 10]%N) "" "")
  = ("", Some "OPENWEATHER_API_KEY is not set") /\
  weatherHandler (mkWorld (environment (bytes [32; 10]%N) "" "")
                          (coordinates "north" "east") unreachable)
  = mkRun (http_Error "invalid API key" StatusInternalServerError) [] [].
Proof.
  exact (blank_key_is_not_set
           (mkWorld (environment (bytes [32; 10]%N) "" "")
                    (coordinates "north" "east") unreachable)
           eq_refl).
Defined.

(** ** The listen address *)

(** X16: what [GetHttpListenAddressAndPort] returns, read backwards.  An
    address without an error is the value of HTTP_LISTEN_ADDR as it is, a
    colon and the port in decimal, where the value is an IP address, the
    port a number from 1 to 65535 and neither variable blank; an error
    comes with the empty address and is one of four messages. *)
Theorem GetHttpListenAddressAndPort_inv (getenv : string -> string)
        (listenAddress : string) (err : option string) :
  GetHttpListenAddressAndPort getenv = (listenAddress, err) ->
  let addr := getenv "HTTP_LISTEN_ADDR" in
  let port := getenv "HTTP_LISTEN_PORT" in
  match err with
  | None =>
      strings.TrimSpace addr <> "" /\ strings.TrimSpace port <> "" /\
      net.ParseIP addr = true /\
      exists p, strconv.Atoi port = Some p /\ (1 <= p <= 65535)%Z /\
                listenAddress = addr ++ ":" ++ decimal p
  | Some msg =>
      listenAddress = "" /\
      (msg = "missing IP address (HTTP_LISTEN_ADDR not set)" \/
       msg = "missing port (HTTP_LISTEN_PORT not set)" \/
       msg = "invalid IP address: " ++ addr \/
       msg = "invalid port number: " ++ port)
  end.
Proof.
  unfold GetHttpListenAddressAndPort. cbv zeta.
  destruct (String.eqb (strings.TrimSpace (getenv "HTTP_LISTEN_ADDR")) "") eqn:A.
  { intro E. injection E as <- <-. auto. }
  destruct (String.eqb (strings.TrimSpace (getenv "HTTP_LISTEN_PORT")) "") eqn:P.
  { intro E. injection E as <- <-. auto. }
  destruct (net.ParseIP (getenv "HTTP_LISTEN_ADDR")) eqn:I; cbn [negb].
  2:{ intro E. injection E as <- <-. auto. }
  destruct (strconv.Atoi (getenv "HTTP_LISTEN_PORT")) as [p|] eqn:At.
  2:{ intro E. injection E as <- <-. auto 6. }
  destruct ((p <? 1)%Z || (65535 <? p)%Z) eqn:R.
  { intro E. injection E as <- <-. auto 6. }
  intro E. injection E as <- <-.
  apply String.eqb_neq in A, P. apply orb_false_iff in R. destruct R as [R1 R2].
  apply Z.ltb_ge in R1, R2.
  repeat split; try assumption. exists p. repeat split; try lia.
  unfold fmt.verb_d, strconv.Itoa.
  assert ((p <? 0)%Z = false) as -> by (apply Z.ltb_ge; lia). reflexivity.
Qed.

(** The theorem on the address "::1" and the port "+0443". *)
Lemma GetHttpListenAddressAndPort_inv_witness :
  strings.TrimSpace "::1" <> "" /\ strings.TrimSpace "+0443" <> "" /\
  net.ParseIP "::1" = true /\
  exists p, strconv.Atoi "+0443" = Some p /\ (1 <= p <= 65535)%Z /\
            "::1:443" = "::1" ++ ":" ++ decimal p.
Proof.
  exact (GetHttpListenAddressAndPort_inv (environment "" "::1" "+0443")
           "::1:443" None eq_refl).
Defined.

(** X17: a value of HTTP_LISTEN_ADDR, or with an address a value of
    HTTP_LISTEN_PORT, that is ASCII white space only is reported as
    missing. *)
Theorem blank_listen_values_are_missing (getenv : string -> string) :
  (allb isAsciiSpace (getenv "HTTP_LISTEN_ADDR") = true ->
   GetHttpListenAddressAndPort getenv
   = ("", Some "missing IP address (HTTP_LISTEN_ADDR not set)")) /\
  (strings.TrimSpace (getenv "HTTP_LISTEN_ADDR") <> "" ->
   allb isAsciiSpace (getenv "HTTP_LISTEN_PORT") = true ->
   GetHttpListenAddressAndPort getenv
   = ("", Some "missing port (HTTP_LISTEN_PORT not set)")).
Proof.
  unfold GetHttpListenAddressAndPort. split.
  - intro H. now rewrite (TrimSpace_blank _ H).
  - intros A H. apply String.eqb_neq in A.
    now rewrite A, (TrimSpace_blank _ H).
Qed.

(** The theorem on an address of two spaces, and on a port that is a
    tab. *)
Lemma blank_listen_values_are_missing_witness :
  GetHttpListenAddressAndPort (environment "" "  " "8080")
  = ("", Some "missing IP address (HTTP_LISTEN_ADDR not set)") /\
  GetHttpListenAddressAndPort (environment "" "127.0.0.1" (bytes [9]%N))
  = ("", Some "missing port (HTTP_LISTEN_PORT not set)").
Proof.
  split.
  - exact (proj1 (blank_listen_values_are_missing
                    (environment "" "  " "8080")) eq_refl).
  - refine (proj2 (blank_listen_values_are_missing
                     (environment "" "127.0.0.1" (bytes [9]%N))) _ eq_refl).
    vm_compute. discriminate.
Defined.

(** X18: unlike the key, the address and the port are parsed as they are
    set: ASCII white space before or after an otherwise plain value makes
    the address an invalid IP address, and the port an invalid port
    number, whatever the value between the white space. *)
Theorem listen_values_are_not_trimmed (getenv : string -> string)
        (l k r : string) :
  allb isAsciiSpace l = true -> allb isAsciiSpace r = true ->
  l <> "" \/ r <> "" -> allb isPlain k = true -> k <> "" ->
  (getenv "HTTP_LISTEN_ADDR" = l ++ k ++ r ->
   strings.TrimSpace (getenv "HTTP_LISTEN_PORT") <> "" ->
   GetHttpListenAddressAndPort getenv
   = ("", Some ("invalid IP address: " ++ l ++ k ++ r))) /\
  (getenv "HTTP_LISTEN_PORT" = l ++ k ++ r ->
   strings.TrimSpace (getenv "HTTP_LISTEN_ADDR") <> "" ->
   net.ParseIP (getenv "HTTP_LISTEN_ADDR") = true ->
   GetHttpListenAddressAndPort getenv
   = ("", Some ("invalid port number: " ++ l ++ k ++ r))).
Proof.
  intros Hl Hr Pad Hk Hne.
  pose proof (TrimSpace_padded l k r Hl Hr Hk) as T.
  pose proof (noSpace_padded l k r Hl Hr Pad) as S.
  apply String.eqb_neq in Hne.
  unfold GetHttpListenAddressAndPort. split.
  - intros E P. apply String.eqb_neq in P. rewrite E, T, Hne, P.
    destruct (net.ParseIP (l ++ k ++ r)) eqn:I; [|reflexivity].
    apply ParseIP_noSpace in I. congruence.
  - intros E A I. apply String.eqb_neq in A. rewrite E, T, Hne, A, I.
    cbn [negb].
    destruct (strconv.Atoi (l ++ k ++ r)) as [p|] eqn:At; [|reflexivity].
    apply Atoi_noSpace in At. congruence.
Qed.

(** The theorem on "127.0.0.1 " and on " 8080". *)
Lemma listen_values_are_not_trimmed_witness :
  GetHttpListenAddressAndPort (environment "" "127.0.0.1 " "8080")
  = ("", Some "invalid IP address: 127.0.0.1 ") /\
  GetHttpListenAddressAndPort (environment "" "127.0.0.1" " 8080")
  = ("", Some "invalid port number:  8080").
Proof.
  split.
  - refine (proj1 (listen_values_are_not_trimmed
                     (environment "" "127.0.0.1 " "8080")
                     "" "127.0.0.1" " " _ _ _ _ _) _ _);
      try reflexivity; try discriminate; try (vm_compute; discriminate).
    right. discriminate.
  - refine (proj2 (listen_values_are_not_trimmed
                     (environment "" "127.0.0.1" " 8080")
                     " " "8080" "" _ _ _ _ _) _ _ _);
      try reflexivity; try discriminate; try (vm_compute; discriminate).
    left. discriminate.
Defined.

(** ** main *)

(** X19: [main] either ends with "Error: " and the message of
    [GetHttpListenAddressAndPort], or serves: then the routes are /health
    and /weather with their two handlers, the line printed names the
    address, and the address listened on is an IP address, a colon and a
    port from 1 to 65535 in decimal. *)
Theorem main_serves_valid_address (getenv : string -> string) :
  match main getenv with
  | Fatal logged =>
      exists msg,
        logged = "Error: " ++ msg /\
        GetHttpListenAddressAndPort getenv = ("", Some msg)
  | Serving routes printed listenAddress =>
      routes = [("/health", healthCheck); ("/weather", weatherHandler)] /\
      printed = "Server listening on port " ++ listenAddress ++ "..." ++ newline /\
      net.ParseIP (getenv "HTTP_LISTEN_ADDR") = true /\
      exists p, strconv.Atoi (getenv "HTTP_LISTEN_PORT") = Some p /\
                (1 <= p <= 65535)%Z /\
                listenAddress = getenv "HTTP_LISTEN_ADDR" ++ ":" ++ decimal p
  end.
Proof.
  unfold main, GetHttpListenAddressAndPort.
  destruct (String.eqb (strings.TrimSpace (getenv "HTTP_LISTEN_ADDR")) "");
    [eexists; split; reflexivity|].
  destruct (String.eqb (strings.TrimSpace (getenv "HTTP_LISTEN_PORT")) "");
    [eexists; split; reflexivity|].
  destruct (net.ParseIP (getenv "HTTP_LISTEN_ADDR")); cbn [negb];
    [|eexists; split; reflexivity].
  destruct (strconv.Atoi (getenv "HTTP_LISTEN_PORT")) as [p|];
    [|eexists; split; reflexivity].
  destruct ((p <? 1)%Z || (65535 <? p)%Z) eqn:R;
    [eexists; split; reflexivity|].
  apply orb_false_iff in R. destruct R as [R1 R2]. apply Z.ltb_ge in R1, R2.
  repeat split. exists p. repeat split; try lia.
  unfold fmt.verb_d, strconv.Itoa.
  assert ((p <? 0)%Z = false) as -> by (apply Z.ltb_ge; lia). reflexivity.
Qed.
